(** * tram/models.py: acceptance aggregation, mapping ledger, job creation
      and file cleanup

    A shallow embedding of the Django models of [tram/tram/models.py].
    Every model class becomes a module holding the record of its columns;
    the database is a record of tables, each table the list of its rows in
    insertion order; ORM queries become list functions over those tables.
    Python exceptions are values of [Exception], carried by [result]. *)

From Stdlib Require Import ZArith String Ascii List Sorted Floats.PrimFloat.
From stdpp Require Import base decidable option list sorting gmap strings.

Open Scope string_scope.
Open Scope Z_scope.

(** ** Python-level values and errors *)

Inductive Exception :=
  | AssertionError
  | AttributeError (cls attr : string)
  | DoesNotExist
  | MultipleObjectsReturned
  | FileNotFoundError
  | IsADirectoryError
  | PermissionError
  | SuspiciousFileOperation
  | ValueError.

Inductive result (A : Type) :=
  | Ok (a : A)
  | Raise (e : Exception).
Arguments Ok {A} a.
Arguments Raise {A} e.

(** ** Choices *)

(** [DISPOSITION_CHOICES]: ['accept'], ['reject'] and [None]; the column is
    nullable, so a disposition is an [option Disposition] and [None] is the
    SQL NULL of "No Disposition". *)
Inductive Disposition := accept | reject.

(** [JOB_STATUS_CHOICES] *)
Inductive JobStatus := queued | error.

Global Instance Disposition_eq_dec : EqDecision Disposition.
Proof. solve_decision. Defined.
Global Instance JobStatus_eq_dec : EqDecision JobStatus.
Proof. solve_decision. Defined.

(** ** The model classes: one record of columns per class

    [id] is the automatic primary key.  A [ForeignKey] column holds the
    primary key of the row it points to, [option] when [null=True].  The
    [created_on]/[updated_on] timestamps are filled by the clock and take
    part in no operation of this file; they are left out. *)

Module AttackTechnique.
Record t := mk {
  id : Z;
  name : string;
  stix_id : string;
  attack_id : string;
  attack_url : string;
  matrix : string
}.
End AttackTechnique.

Module AttackGroup.
Record t := mk {
  id : Z;
  name : string;
  stix_id : string;
  attack_id : string;
  attack_url : string;
  matrix : string
}.
End AttackGroup.

(** [django.core.files.File]: a name and the bytes behind it. *)
Module File.
Record t := mk {
  name : string;
  content : list Byte.byte
}.
End File.

Module Document.
Record t := mk {
  id : Z;
  docfile : File.t;
  created_by : option Z
}.
End Document.

Module DocumentProcessingJob.
Record t := mk {
  id : Z;
  document : Z;
  status : JobStatus;
  message : string;
  created_by : option Z
}.
End DocumentProcessingJob.

Module Report.
Record t := mk {
  id : Z;
  name : string;
  document : option Z;
  text : string;
  created_by : option Z
}.
End Report.

Module Sentence.
Record t := mk {
  id : Z;
  text : string;
  document : option Z;
  order : Z;
  report : Z;
  disposition : option Disposition
}.
End Sentence.

Module SentenceTechniqueMapping.
Record t := mk {
  id : Z;
  report : Z;
  sentence : Z;
  attack_technique : option Z;
  confidence : float
}.
End SentenceTechniqueMapping.

Module SentenceGroupMapping.
Record t := mk {
  id : Z;
  report : Z;
  sentence : Z;
  attack_group : option Z;
  confidence : float
}.
End SentenceGroupMapping.

Module ReportTechniqueMapping.
Record t := mk {
  id : Z;
  report : Z;
  attack_technique : Z;
  confidence : float
}.
End ReportTechniqueMapping.

Module ReportGroupMapping.
Record t := mk {
  id : Z;
  report : Z;
  attack_group : Z;
  confidence : float
}.
End ReportGroupMapping.

(** ** The database and the configuration *)

Record Store := mkStore {
  attack_techniques : list AttackTechnique.t;
  attack_groups : list AttackGroup.t;
  documents : list Document.t;
  document_processing_jobs : list DocumentProcessingJob.t;
  reports : list Report.t;
  sentences : list Sentence.t;
  sentence_technique_mappings : list SentenceTechniqueMapping.t;
  sentence_group_mappings : list SentenceGroupMapping.t;
  report_technique_mappings : list ReportTechniqueMapping.t;
  report_group_mappings : list ReportGroupMapping.t
}.

Definition empty_store : Store := mkStore [] [] [] [] [] [] [] [] [] [].

(** [constance.config]: the one setting the models read. *)
Record Config := mkConfig { ML_ACCEPT_THRESHOLD : Z }.

(** ** [AttackTechnique.get_sentence_counts]

    The three [Count('sentences', ...)] annotations share one join: every
    mapping row whose [attack_technique] is the technique, LEFT OUTER
    JOINed with the sentence its [sentence] column points to.  A join row
    is the mapping together with the sentence found, if any. *)

Definition JoinRow : Type := SentenceTechniqueMapping.t * option Sentence.t.

Definition left_join_sentence (db : Store) (m : SentenceTechniqueMapping.t)
  : list JoinRow :=
  match filter (λ s, Sentence.id s = SentenceTechniqueMapping.sentence m)
               (sentences db) with
  | [] => [(m, None)]
  | ss => (λ s, (m, Some s)) <$> ss
  end.

(** The mapping rows whose [attack_technique] is [t]. *)
Definition mappings_to (db : Store) (t : AttackTechnique.t)
  : list SentenceTechniqueMapping.t :=
  filter (λ m, SentenceTechniqueMapping.attack_technique m
               = Some (AttackTechnique.id t))
         (sentence_technique_mappings db).

Definition sentences_join (db : Store) (t : AttackTechnique.t) : list JoinRow :=
  mjoin (left_join_sentence db <$> mappings_to db t).

(** [sentences__disposition] on a join row; NULL when the join found no
    sentence. *)
Definition sentences__disposition (r : JoinRow) : option Disposition :=
  match r.2 with
  | Some s => Sentence.disposition s
  | None => None
  end.

(** [Count('sentences')]: the join rows, one per value of the mapping's
    non-null [sentence] column. *)
Definition Count (rows : list JoinRow) : Z := Z.of_nat (length rows).

(** [Count('sentences', filter=Q(sentences__disposition=d))] *)
Definition Count_filter (d : option Disposition) (rows : list JoinRow) : Z :=
  Count (filter (λ r, sentences__disposition r = d) rows).

(** A technique with its three annotations. *)
Record Annotated := mkAnnotated {
  technique : AttackTechnique.t;
  accepted_sentences : Z;
  pending_sentences : Z;
  total_sentences : Z
}.

Definition annotate_one (db : Store) (t : AttackTechnique.t) : Annotated :=
  let rows := sentences_join db t in
  {| technique := t;
     accepted_sentences := Count_filter (Some accept) rows;
     pending_sentences := Count_filter None rows;
     total_sentences := Count rows |}.

Definition annotate (db : Store) : list Annotated :=
  annotate_one db <$> attack_techniques db.

(** [order_by('-accepted_sentences', 'attack_id')]: [a] may come before [b]
    when it has more accepted sentences, or as many and an [attack_id] that
    is not greater in the byte-wise lexicographic order of [String.leb]. *)
Definition before (a b : Annotated) : Prop :=
  accepted_sentences b < accepted_sentences a
  ∨ (accepted_sentences a = accepted_sentences b
     ∧ String.leb (AttackTechnique.attack_id (technique a))
                  (AttackTechnique.attack_id (technique b)) = true).

Global Instance before_dec a b : Decision (before a b).
Proof. unfold before. apply _. Defined.

Definition order_by (l : list Annotated) : list Annotated :=
  merge_sort before l.

Definition AttackTechnique_get_sentence_counts
    (accept_threshold : Z) (db : Store) : list Annotated :=
  filter (λ a, accept_threshold ≤ accepted_sentences a)
         (order_by (annotate db)).

(** ** Class attributes

    [Cls.attr] on a model class finds [attr] among the names bound in the
    class body (the ones [models.Model] provides are not query methods and
    are none of the names looked up below); a name bound nowhere raises
    [AttributeError]. *)

Definition getattr {M : Type} (cls : string) (bound : list (string * M))
    (attr : string) : result M :=
  match list_find (λ p, p.1 = attr) bound with
  | Some (_, (_, m)) => Ok m
  | None => Raise (AttributeError cls attr)
  end.

(** The count queries bound in [class AttackTechnique]: one. *)
Definition AttackTechnique_counts
  : list (string * (Z → Store → list Annotated)) :=
  [("get_sentence_counts", AttackTechnique_get_sentence_counts)].

(** The count queries bound in [class AttackGroup]: none. *)
Definition AttackGroup_counts
  : list (string * (Z → Store → list AttackGroup.t)) :=
  [].

(** ** [get_accepted_mappings], one per mapping class *)

(** [attack_technique__in=attack_techniques] compares the foreign key with
    the primary keys of the query's rows; a NULL key is in no set. *)
Definition pk_in (fk : option Z) (pks : list Z) : Prop :=
  match fk with
  | Some k => k ∈ pks
  | None => False
  end.

Global Instance pk_in_dec fk pks : Decision (pk_in fk pks).
Proof. destruct fk; simpl; apply _. Defined.

Definition SentenceTechniqueMapping_get_accepted_mappings
    (config : Config) (db : Store) : result (list SentenceTechniqueMapping.t) :=
  match getattr "AttackTechnique" AttackTechnique_counts "get_sentence_counts" with
  | Raise e => Raise e
  | Ok get_counts =>
      let attack_techniques := get_counts (ML_ACCEPT_THRESHOLD config) db in
      Ok (filter (λ m, pk_in (SentenceTechniqueMapping.attack_technique m)
                             (AttackTechnique.id ∘ technique <$> attack_techniques))
                 (sentence_technique_mappings db))
  end.

Definition SentenceGroupMapping_get_accepted_mappings
    (config : Config) (db : Store) : result (list SentenceGroupMapping.t) :=
  match getattr "AttackGroup" AttackGroup_counts "get_sentence_counts" with
  | Raise e => Raise e
  | Ok get_counts =>
      let attack_groups := get_counts (ML_ACCEPT_THRESHOLD config) db in
      Ok (filter (λ m, pk_in (SentenceGroupMapping.attack_group m)
                             (AttackGroup.id <$> attack_groups))
                 (sentence_group_mappings db))
  end.

Definition ReportTechniqueMapping_get_accepted_mappings
    (config : Config) (db : Store) : result (list ReportTechniqueMapping.t) :=
  match getattr "AttackTechnique" AttackTechnique_counts "get_report_counts" with
  | Raise e => Raise e
  | Ok get_counts =>
      let attack_techniques := get_counts (ML_ACCEPT_THRESHOLD config) db in
      Ok (filter (λ m, pk_in (Some (ReportTechniqueMapping.attack_technique m))
                             (AttackTechnique.id ∘ technique <$> attack_techniques))
                 (report_technique_mappings db))
  end.

Definition ReportGroupMapping_get_accepted_mappings
    (config : Config) (db : Store) : result (list ReportGroupMapping.t) :=
  match getattr "AttackGroup" AttackGroup_counts "get_report_counts" with
  | Raise e => Raise e
  | Ok get_counts =>
      let attack_groups := get_counts (ML_ACCEPT_THRESHOLD config) db in
      Ok (filter (λ m, pk_in (Some (ReportGroupMapping.attack_group m))
                             (AttackGroup.id <$> attack_groups))
                 (report_group_mappings db))
  end.

(** ** [SentenceTechniqueMapping.from_mapping] *)

(** The scorer's suggestion handed to [from_mapping]: of it the method
    reads [attack_technique] (an ATT&CK id) and [confidence]. *)
Module Mapping.
Record t := mk {
  confidence : float;
  attack_technique : string
}.
End Mapping.

(** [Model.objects.get(...)] over the rows that match. *)
Definition objects_get {A : Type} (matching : list A) : result A :=
  match matching with
  | [] => Raise DoesNotExist
  | [x] => Ok x
  | _ => Raise MultipleObjectsReturned
  end.

(** A model instance built but not saved has no primary key yet: it is the
    row as a function of the key the database will give it. *)
Definition Unsaved (A : Type) : Type := Z → A.

(** [from_mapping] reads the store and writes nothing to it: there is no
    [save()] in its body. *)
Definition SentenceTechniqueMapping_from_mapping
    (mapping_input : Sentence.t) (mapping : Mapping.t) (db : Store)
  : result (Unsaved SentenceTechniqueMapping.t) * Store :=
  match objects_get (filter (λ t, AttackTechnique.attack_id t
                                  = Mapping.attack_technique mapping)
                            (attack_techniques db)) with
  | Raise e => (Raise e, db)
  | Ok at_ =>
      (Ok (λ pk, {| SentenceTechniqueMapping.id := pk;
                    SentenceTechniqueMapping.report := Sentence.report mapping_input;
                    SentenceTechniqueMapping.sentence := Sentence.id mapping_input;
                    SentenceTechniqueMapping.attack_technique := Some (AttackTechnique.id at_);
                    SentenceTechniqueMapping.confidence := Mapping.confidence mapping |}),
       db)
  end.

(** ** The file system

    What each directory entry holds.  The operating system and the file
    storage of the project act on it; neither is part of the models, and
    both are taken as they come: as variables of the sections below. *)

Inductive Node :=
  | RegularFile (content : list Byte.byte)
  | Directory.

Abbreviation FileSystem := (gmap string Node).

(** [bool(instance.docfile)]: a [FieldFile] is true when it has a name. *)
Definition docfile_bool (f : File.t) : bool :=
  if decide (File.name f = EmptyString) then false else true.

(** ** [DocumentProcessingJob.create_from_file] *)

(** What a caller may pass for [f]. *)
Inductive PyObject :=
  | PyNone
  | PyBool (b : bool)
  | PyInt (n : Z)
  | PyStr (s : string)
  | PyBytes (bs : list Byte.byte)
  | PyFile (f : File.t).

Definition isinstance_File (o : PyObject) : bool :=
  match o with
  | PyFile _ => true
  | _ => false
  end.

(** The key an INSERT gives a new row: above every key of the table. *)
Definition next_pk (pks : list Z) : Z := 1 + foldr Z.max 0 pks.

(** [dpj.save()] for a new [DocumentProcessingJob]: the INSERT of its row. *)
Definition DocumentProcessingJob_save (dpj : Unsaved DocumentProcessingJob.t)
    (db : Store) : DocumentProcessingJob.t * Store :=
  let j := dpj (next_pk (DocumentProcessingJob.id <$> document_processing_jobs db)) in
  (j, mkStore (attack_techniques db) (attack_groups db)
              (documents db) (document_processing_jobs db ++ [j])
              (reports db) (sentences db)
              (sentence_technique_mappings db) (sentence_group_mappings db)
              (report_technique_mappings db) (report_group_mappings db)).

Section Storage.

(** [storage.save(name, content)], the storage's answer for a file on a
    file system: the name it stored the file under, which need not be the
    file's own, or the exception it raised (a name with path elements is
    refused with [SuspiciousFileOperation]), and the file system it leaves. *)
Variable storage_save : File.t → FileSystem → result string * FileSystem.

(** [FileField.pre_save]: a file that has a name goes to the storage and
    takes the name the storage returns; a file without a name is kept as
    it is. *)
Definition FileField_pre_save (f : File.t) (fs : FileSystem)
  : result File.t * FileSystem :=
  if docfile_bool f then
    match storage_save f fs with
    | (Ok name, fs') => (Ok (File.mk name (File.content f)), fs')
    | (Raise e, fs') => (Raise e, fs')
    end
  else (Ok f, fs).

(** [doc.save()] for a new [Document]: [pre_save] of its file, then the
    INSERT of its row.  An exception of the storage comes before the
    INSERT and leaves the table as it was. *)
Definition Document_save (doc : Unsaved Document.t) (db : Store)
    (fs : FileSystem) : result Document.t * Store * FileSystem :=
  let pk := next_pk (Document.id <$> documents db) in
  match FileField_pre_save (Document.docfile (doc pk)) fs with
  | (Raise e, fs') => (Raise e, db, fs')
  | (Ok stored, fs') =>
      let d := {| Document.id := pk;
                  Document.docfile := stored;
                  Document.created_by := Document.created_by (doc pk) |} in
      (Ok d,
       mkStore (attack_techniques db) (attack_groups db)
               (documents db ++ [d]) (document_processing_jobs db)
               (reports db) (sentences db)
               (sentence_technique_mappings db) (sentence_group_mappings db)
               (report_technique_mappings db) (report_group_mappings db),
       fs')
  end.

Definition DocumentProcessingJob_create_from_file (f : PyObject) (db : Store)
    (fs : FileSystem) : result DocumentProcessingJob.t * Store * FileSystem :=
  match f with
  | PyFile file =>
      let doc : Unsaved Document.t :=
        λ pk, {| Document.id := pk;
                 Document.docfile := file;
                 Document.created_by := None |} in
      match Document_save doc db fs with
      | (Raise e, db, fs) => (Raise e, db, fs)
      | (Ok doc, db, fs) =>
          let dpj : Unsaved DocumentProcessingJob.t :=
            λ pk, {| DocumentProcessingJob.id := pk;
                     DocumentProcessingJob.document := Document.id doc;
                     DocumentProcessingJob.status := queued;
                     DocumentProcessingJob.message := EmptyString;
                     DocumentProcessingJob.created_by := None |} in
          let '(dpj, db) := DocumentProcessingJob_save dpj db in
          (Ok dpj, db, fs)
      end
  | _ => (Raise AssertionError, db, fs)
  end.

End Storage.

(** ** [_delete_file] and the [post_delete] receiver *)

Section OperatingSystem.

(** The operating system's side of [os.path.isfile] and [os.remove]:
    [realpath p] is the directory entry that the path [p] names (two
    spellings of one path name the same entry), and [unlink_error e] is
    the error the system answers when asked to remove the entry [e]
    ([PermissionError] and the like), [None] when it removes it. *)
Variable realpath : string → string.
Variable unlink_error : string → option Exception.

Definition os_path_isfile (fs : FileSystem) (path : string) : bool :=
  match fs !! realpath path with
  | Some (RegularFile _) => true
  | _ => false
  end.

Definition os_remove (path : string) (fs : FileSystem)
  : result unit * FileSystem :=
  match fs !! realpath path with
  | Some (RegularFile _) =>
      match unlink_error (realpath path) with
      | None => (Ok tt, delete (realpath path) fs)
      | Some e => (Raise e, fs)
      end
  | Some Directory => (Raise IsADirectoryError, fs)
  | None => (Raise FileNotFoundError, fs)
  end.

Definition _delete_file (path : string) (fs : FileSystem)
  : result unit * FileSystem :=
  if os_path_isfile fs path then os_remove path fs else (Ok tt, fs).

(** [FieldFile.path]: where the storage keeps the file of a given name, or
    the exception it raises for a name that leaves its directory (the
    storage and its [MEDIA_ROOT] are settings, not part of the models). *)
Variable storage_path : string → result string.

Definition delete_file_post_delete (instance : Document.t) (fs : FileSystem)
  : result unit * FileSystem :=
  if docfile_bool (Document.docfile instance)
  then match storage_path (File.name (Document.docfile instance)) with
       | Ok path => _delete_file path fs
       | Raise e => (Raise e, fs)
       end
  else (Ok tt, fs).

End OperatingSystem.

(** ** The notions the properties are stated with *)

(** The mapping rows of the technique whose sentence has disposition
    [reject], counted over the same join as the three annotations. *)
Definition rejected_rows (db : Store) (t : AttackTechnique.t) : Z :=
  Count_filter (Some reject) (sentences_join db t).

(** A sentence is mapped to a technique when a mapping row of the
    technique points to it. *)
Definition mapped_to (db : Store) (t : AttackTechnique.t) (s : Sentence.t)
  : Prop :=
  Exists (λ m, SentenceTechniqueMapping.sentence m = Sentence.id s)
         (mappings_to db t).

Global Instance mapped_to_dec db t s : Decision (mapped_to db t s).
Proof. unfold mapped_to. apply _. Defined.

(** Rejected-but-present: the number of sentences with disposition
    [reject] that have a mapping to the technique, each sentence once. *)
Definition rejected_but_present (db : Store) (t : AttackTechnique.t) : Z :=
  Z.of_nat (length (filter (λ s, Sentence.disposition s = Some reject
                                 ∧ mapped_to db t s)
                           (sentences db))).

(** What a [create_from_file] that returned did to the store: [db'] is
    [db] with one document more, holding the file [stored] under a fresh
    key, and one job more, [dpj], under a fresh key, referencing that
    document with status [queued]; every other table is as it was. *)
Definition created_document_and_job (db db' : Store) (stored : File.t)
    (dpj : DocumentProcessingJob.t) : Prop :=
  ∃ doc : Document.t,
    documents db' = (documents db ++ [doc])%list
    ∧ document_processing_jobs db' = (document_processing_jobs db ++ [dpj])%list
    ∧ Document.docfile doc = stored
    ∧ (Document.id doc ∉ Document.id <$> documents db)
    ∧ DocumentProcessingJob.document dpj = Document.id doc
    ∧ DocumentProcessingJob.status dpj = queued
    ∧ (DocumentProcessingJob.id dpj
       ∉ DocumentProcessingJob.id <$> document_processing_jobs db)
    ∧ (attack_techniques db', attack_groups db', reports db', sentences db',
       sentence_technique_mappings db', sentence_group_mappings db',
       report_technique_mappings db', report_group_mappings db')
      = (attack_techniques db, attack_groups db, reports db, sentences db,
         sentence_technique_mappings db, sentence_group_mappings db,
         report_technique_mappings db, report_group_mappings db).

(** A technique has a mapped sentence when some mapping row targets it
    (the [sentence] column of a mapping row is never NULL). *)
Definition has_mapped_sentence (db : Store) (t : AttackTechnique.t) : Prop :=
  ∃ m, m ∈ sentence_technique_mappings db
       ∧ SentenceTechniqueMapping.attack_technique m = Some (AttackTechnique.id t).

(** [m.sentence]: the sentence a mapping row points to, and its
    disposition (NULL when there is none to read). *)
Definition sentence_of (db : Store) (m : SentenceTechniqueMapping.t)
  : option Sentence.t :=
  head (filter (λ s, Sentence.id s = SentenceTechniqueMapping.sentence m)
               (sentences db)).

Definition disposition_of (db : Store) (m : SentenceTechniqueMapping.t)
  : option Disposition :=
  match sentence_of db m with
  | Some s => Sentence.disposition s
  | None => None
  end.

(** The distinct sentence-to-entry associations of [t]: the sentences mapped
    to it, each taken once however many mapping rows repeat the pair. *)
Definition distinct_associations (db : Store) (t : AttackTechnique.t) : list Z :=
  remove_dups (SentenceTechniqueMapping.sentence <$> mappings_to db t).

(** The mapping rows of [t] whose sentence has disposition [d]. *)
Definition mappings_to_with (d : option Disposition)
    (db : Store) (t : AttackTechnique.t) : list SentenceTechniqueMapping.t :=
  filter (λ m, disposition_of db m = d) (mappings_to db t).

(** The distinct associations restricted to the sentences of disposition [d]. *)
Definition distinct_associations_with (d : option Disposition)
    (db : Store) (t : AttackTechnique.t) : list Z :=
  remove_dups (SentenceTechniqueMapping.sentence <$> mappings_to_with d db t).

(** ** A sample store

    Three techniques; four sentences, two accepted, one pending and one
    rejected; T1566 has one mapping to each of the first three sentences,
    T1001 has two mapping rows to the rejected sentence, T1000 has none, and
    one mapping row has no technique. *)

Definition T1566 : AttackTechnique.t :=
  AttackTechnique.mk 1 "Phishing" "attack-pattern--a" "T1566" "https://attack/T1566" "enterprise".
Definition T1001 : AttackTechnique.t :=
  AttackTechnique.mk 2 "Data Obfuscation" "attack-pattern--b" "T1001" "https://attack/T1001" "enterprise".
Definition T1000 : AttackTechnique.t :=
  AttackTechnique.mk 3 "Placeholder" "attack-pattern--c" "T1000" "https://attack/T1000" "enterprise".

Definition sample_sentence (pk : Z) (d : option Disposition) : Sentence.t :=
  Sentence.mk pk "They sent a spearphishing mail." None 1000 1 d.

Definition sample_mapping (pk sentence : Z) (target : option Z)
  : SentenceTechniqueMapping.t :=
  SentenceTechniqueMapping.mk pk 1 sentence target 0.5%float.

Definition sample_store : Store :=
  {| attack_techniques := [T1566; T1001; T1000];
     attack_groups := [];
     documents := [];
     document_processing_jobs := [];
     reports := [Report.mk 1 "Report" None "They sent a spearphishing mail." None];
     sentences := [sample_sentence 1 (Some accept); sample_sentence 2 (Some accept);
                   sample_sentence 3 None; sample_sentence 4 (Some reject)];
     sentence_technique_mappings :=
       [sample_mapping 1 1 (Some 1); sample_mapping 2 2 (Some 1);
        sample_mapping 3 3 (Some 1); sample_mapping 4 4 (Some 2);
        sample_mapping 5 4 (Some 2); sample_mapping 6 4 None];
     sentence_group_mappings := [];
     report_technique_mappings := [ReportTechniqueMapping.mk 1 1 1 0.75%float];
     report_group_mappings := [] |}.

(** ** A sample operating system and storage

    Paths name entries as they are spelled and the system removes what it
    is asked to; the storage keeps its files under [/media], refuses a
    name with a path in it, and stores a file whose name is taken under
    that name with a suffix. *)

Definition sample_realpath (path : string) : string := path.

Definition sample_unlink_error (entry : string) : option Exception := None.

(** A system that lets the process remove nothing. *)
Definition readonly_unlink_error (entry : string) : option Exception :=
  Some PermissionError.

Definition sample_storage_path (name : string) : result string :=
  match String.index 0 "/" name with
  | Some _ => Raise SuspiciousFileOperation
  | None => Ok ("/media/" +:+ name)
  end.

Definition sample_storage_save (f : File.t) (fs : FileSystem)
  : result string * FileSystem :=
  match String.index 0 "/" (File.name f) with
  | Some _ => (Raise SuspiciousFileOperation, fs)
  | None =>
      let name :=
        match fs !! ("/media/" +:+ File.name f) with
        | Some _ => File.name f +:+ "_1"
        | None => File.name f
        end in
      (Ok name, <["/media/" +:+ name := RegularFile (File.content f)]> fs)
  end.

Definition sample_document : Document.t :=
  Document.mk 1 (File.mk "report.pdf" []) None.

(** A file system where the document's file has been removed already. *)
Definition sample_fs : FileSystem :=
  (_delete_file sample_realpath sample_unlink_error "/media/report.pdf"
     (<["/media/report.pdf" := RegularFile []]> (<["/media" := Directory]> ∅))).2.

(** ** [Sentence.__str__] *)

Definition SENTENCE_PREVIEW_CHARS : nat := 40.

(** [self.text[:SENTENCE_PREVIEW_CHARS] + append], with [append] the three
    dots when the text is longer than the preview.  [len] and the slice
    count characters, the elements of a [string]. *)
Definition Sentence___str__ (self : Sentence.t) : string :=
  let append :=
    if (SENTENCE_PREVIEW_CHARS <? String.length (Sentence.text self))%nat
    then "..." else EmptyString in
  String.substring 0 SENTENCE_PREVIEW_CHARS (Sentence.text self) +:+ append.

(** ** Saving the mapping [from_mapping] returns *)

(** [m.save()] for a new [SentenceTechniqueMapping]: the INSERT of its row. *)
Definition SentenceTechniqueMapping_save
    (m : Unsaved SentenceTechniqueMapping.t) (db : Store)
  : SentenceTechniqueMapping.t * Store :=
  let r := m (next_pk (SentenceTechniqueMapping.id <$> sentence_technique_mappings db)) in
  (r, mkStore (attack_techniques db) (attack_groups db)
              (documents db) (document_processing_jobs db)
              (reports db) (sentences db)
              (sentence_technique_mappings db ++ [r]) (sentence_group_mappings db)
              (report_technique_mappings db) (report_group_mappings db)).

(** ** Deleting a document: the [on_delete=models.CASCADE] declarations

    [class Indicator] has one foreign key, to its report. *)

Module Indicator.
Record t := mk {
  id : Z;
  report : Z;
  indicator_type : string;
  value : string
}.
End Indicator.

(** The tables of [Store] together with the indicators. *)
Record Database := mkDatabase {
  tables : Store;
  indicators : list Indicator.t
}.

(** The reports that go with document [d]: [Report.document] cascades. *)
Definition cascade_reports (db : Store) (d : Z) : list Z :=
  Report.id <$> filter (λ r, Report.document r = Some d) (reports db).

(** A sentence goes with document [d] through [Sentence.document] or
    through [Sentence.report], both cascading. *)
Definition sentence_cascades (db : Store) (d : Z) (s : Sentence.t) : Prop :=
  Sentence.document s = Some d ∨ Sentence.report s ∈ cascade_reports db d.

Global Instance sentence_cascades_dec db d s : Decision (sentence_cascades db d s).
Proof. unfold sentence_cascades. apply _. Defined.

Definition cascade_sentences (db : Store) (d : Z) : list Z :=
  Sentence.id <$> filter (sentence_cascades db d) (sentences db).

(** A sentence-level mapping goes with its report or with its sentence; a
    report-level mapping and an indicator go with their report. *)
Definition mapping_cascades (db : Store) (d : Z) (report sentence : Z) : Prop :=
  report ∈ cascade_reports db d ∨ sentence ∈ cascade_sentences db d.

Global Instance mapping_cascades_dec db d r s : Decision (mapping_cascades db d r s).
Proof. unfold mapping_cascades. apply _. Defined.

(** The rows left once the document of key [d] and all that cascades from
    it are deleted.  Techniques and groups have no key to a document. *)
Definition cascade_delete (d : Z) (D : Database) : Database :=
  let db := tables D in
  {| tables :=
       {| attack_techniques := attack_techniques db;
          attack_groups := attack_groups db;
          documents := filter (λ x, Document.id x ≠ d) (documents db);
          document_processing_jobs :=
            filter (λ j, DocumentProcessingJob.document j ≠ d)
                   (document_processing_jobs db);
          reports := filter (λ r, Report.document r ≠ Some d) (reports db);
          sentences := filter (λ s, ¬ sentence_cascades db d s) (sentences db);
          sentence_technique_mappings :=
            filter (λ m, ¬ mapping_cascades db d
                             (SentenceTechniqueMapping.report m)
                             (SentenceTechniqueMapping.sentence m))
                   (sentence_technique_mappings db);
          sentence_group_mappings :=
            filter (λ m, ¬ mapping_cascades db d
                             (SentenceGroupMapping.report m)
                             (SentenceGroupMapping.sentence m))
                   (sentence_group_mappings db);
          report_technique_mappings :=
            filter (λ m, ReportTechniqueMapping.report m ∉ cascade_reports db d)
                   (report_technique_mappings db);
          report_group_mappings :=
            filter (λ m, ReportGroupMapping.report m ∉ cascade_reports db d)
                   (report_group_mappings db) |};
     indicators :=
       filter (λ i, Indicator.report i ∉ cascade_reports db d) (indicators D) |}.

(** A [Document] object in memory: [pk] is [None] once the object has been
    deleted. *)
Module DocumentObject.
Record t := mk {
  pk : option Z;
  docfile : File.t
}.
End DocumentObject.

Section Delete.

Variable realpath : string → string.
Variable unlink_error : string → option Exception.
Variable storage_path : string → result string.

(** [self.delete()] on a [Document]: an object without a key raises
    [ValueError]; otherwise the rows go and [post_delete] runs its receiver
    on the object, all in one transaction, so that an exception of the
    receiver undoes the deletion of the rows (not what the receiver did to
    the file system); when all went well the object loses its key. *)
Definition Document_delete (self : DocumentObject.t) (D : Database)
    (fs : FileSystem)
  : result unit * DocumentObject.t * Database * FileSystem :=
  match DocumentObject.pk self with
  | None => (Raise ValueError, self, D, fs)
  | Some d =>
      match delete_file_post_delete realpath unlink_error storage_path
              (Document.mk d (DocumentObject.docfile self) None) fs with
      | (Ok tt, fs') =>
          (Ok tt, DocumentObject.mk None (DocumentObject.docfile self),
           cascade_delete d D, fs')
      | (Raise e, fs') => (Raise e, self, D, fs')
      end
  end.

End Delete.

(** Every foreign key of a row points to a row that is there. *)
Definition references_hold (D : Database) : Prop :=
  let db := tables D in
  let document_keys := Document.id <$> documents db in
  let report_keys := Report.id <$> reports db in
  let sentence_keys := Sentence.id <$> sentences db in
  let technique_keys := AttackTechnique.id <$> attack_techniques db in
  let group_keys := AttackGroup.id <$> attack_groups db in
  (∀ j, j ∈ document_processing_jobs db →
        DocumentProcessingJob.document j ∈ document_keys)
  ∧ (∀ r d, r ∈ reports db → Report.document r = Some d → d ∈ document_keys)
  ∧ (∀ s, s ∈ sentences db →
          Sentence.report s ∈ report_keys
          ∧ ∀ d, Sentence.document s = Some d → d ∈ document_keys)
  ∧ (∀ i, i ∈ indicators D → Indicator.report i ∈ report_keys)
  ∧ (∀ m, m ∈ sentence_technique_mappings db →
          SentenceTechniqueMapping.report m ∈ report_keys
          ∧ SentenceTechniqueMapping.sentence m ∈ sentence_keys
          ∧ ∀ t, SentenceTechniqueMapping.attack_technique m = Some t →
                 t ∈ technique_keys)
  ∧ (∀ m, m ∈ sentence_group_mappings db →
          SentenceGroupMapping.report m ∈ report_keys
          ∧ SentenceGroupMapping.sentence m ∈ sentence_keys
          ∧ ∀ g, SentenceGroupMapping.attack_group m = Some g → g ∈ group_keys)
  ∧ (∀ m, m ∈ report_technique_mappings db →
          ReportTechniqueMapping.report m ∈ report_keys
          ∧ ReportTechniqueMapping.attack_technique m ∈ technique_keys)
  ∧ (∀ m, m ∈ report_group_mappings db →
          ReportGroupMapping.report m ∈ report_keys
          ∧ ReportGroupMapping.attack_group m ∈ group_keys).

(** A database where document 1 owns report 1 with two sentences, one
    mapping and one indicator, beside a report of no document with a
    sentence and a mapping of its own. *)
Definition sample_database : Database :=
  {| tables :=
       {| attack_techniques := [T1566];
          attack_groups := [];
          documents := [sample_document];
          document_processing_jobs :=
            [DocumentProcessingJob.mk 1 1 queued EmptyString None];
          reports := [Report.mk 1 "Report" (Some 1) "Two sentences." None;
                      Report.mk 2 "Notes" None "One sentence." None];
          sentences := [Sentence.mk 1 "First." (Some 1) 1000 1 (Some accept);
                        Sentence.mk 2 "Second." (Some 1) 2000 1 None;
                        Sentence.mk 3 "Other." None 1000 2 None];
          sentence_technique_mappings :=
            [SentenceTechniqueMapping.mk 1 1 1 (Some 1) 0.5%float;
             SentenceTechniqueMapping.mk 2 2 3 (Some 1) 0.25%float];
          sentence_group_mappings := [];
          report_technique_mappings := [];
          report_group_mappings := [] |};
     indicators := [Indicator.mk 1 1 "md5" "d41d8cd98f00b204e9800998ecf8427e"] |}.

(** The file system with the file of the sample document in place. *)
Definition sample_fs_stored : FileSystem :=
  <["/media/report.pdf" := RegularFile []]> (<["/media" := Directory]> ∅).

(** The sample document as an object in memory, and the database once it
    has been deleted. *)
Definition sample_object : DocumentObject.t :=
  DocumentObject.mk (Some 1) (File.mk "report.pdf" []).

Definition sample_database_deleted : Database :=
  {| tables :=
       {| attack_techniques := [T1566];
          attack_groups := [];
          documents := [];
          document_processing_jobs := [];
          reports := [Report.mk 2 "Notes" None "One sentence." None];
          sentences := [Sentence.mk 3 "Other." None 1000 2 None];
          sentence_technique_mappings :=
            [SentenceTechniqueMapping.mk 2 2 3 (Some 1) 0.25%float];
          sentence_group_mappings := [];
          report_technique_mappings := [];
          report_group_mappings := [] |};
     indicators := [] |}.

(** ** Proof steps used on the sample data *)

(** Membership in a list written out. *)
Ltac in_literal_list := repeat constructor.

(** A decidable fact about closed data, by evaluation. *)
Ltac by_evaluation := apply (bool_decide_unpack _); vm_compute; exact I.

(** A fact about every row of a table written out: row by row. *)
Ltac each_row H tac :=
  simpl in H;
  repeat (apply elem_of_cons in H as [->|H]; [tac|]);
  by apply elem_of_nil in H.

(** * Properties *)

(** ** The order of [order_by] *)

(** [String.leb] is the byte-wise lexicographic order; it is transitive. *)
Lemma string_compare_le_trans (s1 s2 s3 : string) :
  String.compare s1 s2 ≠ Gt → String.compare s2 s3 ≠ Gt →
  String.compare s1 s3 ≠ Gt.
Proof.
  revert s2 s3.
  induction s1 as [|c1 s1 IH]; intros [|c2 s2] [|c3 s3]; simpl; try congruence.
  unfold Ascii.compare.
  destruct (N.compare_spec (N_of_ascii c1) (N_of_ascii c2)) as [E12|L12|G12];
    destruct (N.compare_spec (N_of_ascii c2) (N_of_ascii c3)) as [E23|L23|G23];
    destruct (N.compare_spec (N_of_ascii c1) (N_of_ascii c3)) as [E13|L13|G13];
    try congruence; try lia.
  apply IH.
Qed.

Lemma string_leb_trans (s1 s2 s3 : string) :
  String.leb s1 s2 = true → String.leb s2 s3 = true → String.leb s1 s3 = true.
Proof.
  unfold String.leb. intros H12 H23.
  pose proof (string_compare_le_trans s1 s2 s3) as H.
  destruct (String.compare s1 s2), (String.compare s2 s3),
    (String.compare s1 s3); try done; exfalso; apply H; congruence.
Qed.

Lemma string_leb_refl (s : string) : String.leb s s = true.
Proof. destruct (String.leb_total s s); done. Qed.

Global Instance before_total : Total before.
Proof.
  intros a b. unfold before.
  destruct (Z.lt_trichotomy (accepted_sentences a) (accepted_sentences b))
    as [Hlt|[Heq|Hgt]]; [by right; left| |by left; left].
  destruct (String.leb_total (AttackTechnique.attack_id (technique a))
                             (AttackTechnique.attack_id (technique b)));
    [left|right]; right; split; congruence.
Qed.

Global Instance before_trans : Transitive before.
Proof.
  intros a b c. unfold before.
  intros [Hab|[Hab Sab]] [Hbc|[Hbc Sbc]]; [left; lia..|].
  right. split; [congruence|]. eauto using string_leb_trans.
Qed.

Lemma order_by_Permutation (l : list Annotated) : order_by l ≡ₚ l.
Proof. apply merge_sort_Permutation. Qed.

Lemma order_by_sorted (l : list Annotated) : StronglySorted before (order_by l).
Proof. apply StronglySorted_merge_sort; apply _. Qed.

(** Dropping rows keeps the rest in order. *)
Lemma StronglySorted_filter {A} (R : relation A) (P : A → Prop)
    `{!∀ x, Decision (P x)} (l : list A) :
  StronglySorted R l → StronglySorted R (filter P l).
Proof.
  induction 1 as [|x l Hl IH Hx]; [constructor|].
  rewrite filter_cons. case_decide; [|done].
  constructor; [done|].
  apply Forall_forall. intros y [_ Hy]%list_elem_of_filter.
  by eapply Forall_forall in Hx.
Qed.

(** ** What [get_sentence_counts] returns *)

Lemma get_sentence_counts_elem_of (threshold : Z) (db : Store) (a : Annotated) :
  a ∈ AttackTechnique_get_sentence_counts threshold db ↔
  threshold ≤ accepted_sentences a
  ∧ ∃ t, t ∈ attack_techniques db ∧ a = annotate_one db t.
Proof.
  unfold AttackTechnique_get_sentence_counts.
  rewrite list_elem_of_filter, order_by_Permutation.
  unfold annotate. rewrite list_elem_of_fmap.
  split; intros [Hth (t & H1 & H2)]; eauto.
Qed.

Lemma get_sentence_counts_Permutation (threshold : Z) (db : Store) :
  AttackTechnique_get_sentence_counts threshold db
  ≡ₚ filter (λ a, threshold ≤ accepted_sentences a) (annotate db).
Proof.
  unfold AttackTechnique_get_sentence_counts. by rewrite order_by_Permutation.
Qed.

Lemma get_sentence_counts_sorted (threshold : Z) (db : Store) :
  StronglySorted before (AttackTechnique_get_sentence_counts threshold db).
Proof. apply StronglySorted_filter, order_by_sorted. Qed.

(** The counts are lengths, hence never negative. *)
Lemma Count_nonneg (rows : list JoinRow) : 0 ≤ Count rows.
Proof. unfold Count. lia. Qed.

Lemma accepted_sentences_nonneg (db : Store) (t : AttackTechnique.t) :
  0 ≤ accepted_sentences (annotate_one db t).
Proof. apply Count_nonneg. Qed.

(** Each kind of join row: accepted, pending or rejected. *)
Lemma Count_by_disposition (rows : list JoinRow) :
  Count_filter (Some accept) rows + Count_filter None rows
  + Count_filter (Some reject) rows = Count rows.
Proof.
  unfold Count_filter, Count.
  induction rows as [|r rows IH]; [done|].
  rewrite !filter_cons. simpl length.
  destruct (sentences__disposition r) as [[]|];
    repeat case_decide; try congruence; simpl length; lia.
Qed.

(** A laxer threshold keeps every row a stricter one keeps. *)
Lemma filter_threshold_length (t1 t2 : Z) (l : list Annotated) :
  t1 ≤ t2 →
  (length (filter (λ a, (t2 ≤ accepted_sentences a)%Z) l)
   ≤ length (filter (λ a, (t1 ≤ accepted_sentences a)%Z) l))%nat.
Proof.
  intros Hle.
  rewrite <- (list_filter_filter_l (λ a, t2 ≤ accepted_sentences a)
                                   (λ a, t1 ≤ accepted_sentences a))
    by (intros; lia).
  apply length_filter.
Qed.

Example sample_counts :
  AttackTechnique_get_sentence_counts 0 sample_store
  = [mkAnnotated T1566 2 1 3; mkAnnotated T1000 0 0 0; mkAnnotated T1001 0 0 2].
Proof. reflexivity. Qed.

(** ** Threshold and order (C7) *)

(** C7: the output of [get_sentence_counts] holds exactly the annotated
    techniques whose accepted count is at least the threshold, each once,
    and it is ordered by accepted count descending, equal accepted counts
    in ascending lexicographic order of [attack_id]. *)
Theorem get_sentence_counts_threshold_order (threshold : Z) (db : Store) :
  (∀ a, a ∈ AttackTechnique_get_sentence_counts threshold db ↔
        threshold ≤ accepted_sentences a
        ∧ ∃ t, t ∈ attack_techniques db ∧ a = annotate_one db t)
  ∧ AttackTechnique_get_sentence_counts threshold db
    ≡ₚ filter (λ a, threshold ≤ accepted_sentences a) (annotate db)
  ∧ StronglySorted before (AttackTechnique_get_sentence_counts threshold db).
Proof.
  split; [|split].
  - intros a. apply get_sentence_counts_elem_of.
  - apply get_sentence_counts_Permutation.
  - apply get_sentence_counts_sorted.
Qed.

(** In a sorted output, a row at a smaller index never has fewer accepted
    sentences, and with equally many it has the smaller [attack_id]. *)
Lemma get_sentence_counts_lookup_order (threshold : Z) (db : Store)
    (i j : nat) (a b : Annotated) :
  (i < j)%nat →
  AttackTechnique_get_sentence_counts threshold db !! i = Some a →
  AttackTechnique_get_sentence_counts threshold db !! j = Some b →
  accepted_sentences b ≤ accepted_sentences a
  ∧ (accepted_sentences a = accepted_sentences b →
     String.leb (AttackTechnique.attack_id (technique a))
                (AttackTechnique.attack_id (technique b)) = true).
Proof.
  intros Hij Ha Hb.
  pose proof (get_sentence_counts_sorted threshold db) as Hs.
  revert Hs i j Hij Ha Hb.
  generalize (AttackTechnique_get_sentence_counts threshold db).
  induction 1 as [|x l Hl IH Hx]; intros i j Hij Ha Hb; [done|].
  destruct j as [|j]; [lia|]. simpl in Hb.
  destruct i as [|i]; simpl in Ha.
  - injection Ha as ->.
    eapply Forall_forall in Hx; [|by eapply list_elem_of_lookup_2].
    destruct Hx as [Hlt|[Heq Hs]]; split; intros; try lia; done.
  - apply (IH i j); [lia|done..].
Qed.

(** ** Monotonicity in the threshold (C6) *)

(** C6: on a fixed store, raising the threshold never makes
    [get_sentence_counts] return more entries. *)
Theorem get_sentence_counts_monotone (t1 t2 : Z) (db : Store) :
  t1 ≤ t2 →
  (length (AttackTechnique_get_sentence_counts t2 db)
   ≤ length (AttackTechnique_get_sentence_counts t1 db))%nat.
Proof.
  intros Hle. unfold AttackTechnique_get_sentence_counts.
  by apply filter_threshold_length.
Qed.

Lemma get_sentence_counts_monotone_witness :
  (length (AttackTechnique_get_sentence_counts 2 sample_store)
   ≤ length (AttackTechnique_get_sentence_counts 0 sample_store))%nat.
Proof. apply get_sentence_counts_monotone. discriminate. Defined.

(** ** Threshold zero (C4) *)

Lemma filter_all {A} (P : A → Prop) `{!∀ x, Decision (P x)} (l : list A) :
  Forall P l → filter P l = l.
Proof.
  induction 1 as [|x l Hx Hl IH]; [done|].
  by rewrite filter_cons_True, IH.
Qed.

Lemma annotate_technique (db : Store) : technique <$> annotate db = attack_techniques db.
Proof.
  unfold annotate. rewrite <- list_fmap_compose.
  rewrite <- (list_fmap_id (attack_techniques db)) at 2.
  by apply list_fmap_ext.
Qed.

Lemma get_sentence_counts_nonpositive (threshold : Z) (db : Store) :
  threshold ≤ 0 →
  AttackTechnique_get_sentence_counts threshold db = order_by (annotate db).
Proof.
  intros Hth. unfold AttackTechnique_get_sentence_counts.
  apply filter_all, Forall_forall. intros a Ha.
  rewrite order_by_Permutation in Ha.
  apply list_elem_of_fmap in Ha as (t & -> & _).
  pose proof (accepted_sentences_nonneg db t). lia.
Qed.

(** C4, as the code has it: with threshold 0 [get_sentence_counts] returns
    every technique of the store, each once; a technique no mapping row
    targets is returned too, with all three counts 0. *)
Theorem get_sentence_counts_zero_all (db : Store) :
  technique <$> AttackTechnique_get_sentence_counts 0 db ≡ₚ attack_techniques db
  ∧ (∀ t, t ∈ technique <$> AttackTechnique_get_sentence_counts 0 db
          ↔ t ∈ attack_techniques db)
  ∧ (∀ t, t ∈ attack_techniques db → ¬ has_mapped_sentence db t →
          mkAnnotated t 0 0 0 ∈ AttackTechnique_get_sentence_counts 0 db).
Proof.
  assert (technique <$> AttackTechnique_get_sentence_counts 0 db
          ≡ₚ attack_techniques db) as HP.
  { rewrite get_sentence_counts_nonpositive by done.
    by rewrite order_by_Permutation, annotate_technique. }
  split; [done|]. split.
  - intros t. by rewrite HP.
  - intros t Ht Hno.
    apply get_sentence_counts_elem_of. split; [done|].
    exists t. split; [done|].
    assert (sentences_join db t = []) as Hj; [|by unfold annotate_one; rewrite Hj].
    unfold sentences_join.
    destruct (mappings_to db t) as [|m ms] eqn:Hf; [done|].
    assert (m ∈ mappings_to db t) as Hm by (rewrite Hf; constructor).
    apply list_elem_of_filter in Hm as [Htarget Hm].
    exfalso. apply Hno. by exists m.
Qed.

Lemma sample_T1000_unmapped : ¬ has_mapped_sentence sample_store T1000.
Proof.
  intros (m & Hm & Htarget). simpl in Hm.
  repeat (apply elem_of_cons in Hm as [->|Hm];
    [vm_compute in Htarget; discriminate Htarget|]).
  by apply elem_of_nil in Hm.
Qed.

Lemma get_sentence_counts_zero_all_witness :
  mkAnnotated T1000 0 0 0 ∈ AttackTechnique_get_sentence_counts 0 sample_store.
Proof.
  apply (proj2 (proj2 (get_sentence_counts_zero_all sample_store)) T1000).
  - in_literal_list.
  - exact sample_T1000_unmapped.
Defined.

(** The store of the sample has a technique without mapped sentences, and
    threshold 0 returns it all the same. *)
Lemma get_sentence_counts_zero_unmapped :
  ¬ (∀ t, t ∈ technique <$> AttackTechnique_get_sentence_counts 0 sample_store
          ↔ t ∈ attack_techniques sample_store
            ∧ has_mapped_sentence sample_store t).
Proof.
  intros H. destruct (H T1000) as [H1 _].
  destruct H1 as [_ Hmapped].
  - rewrite sample_counts. simpl. in_literal_list.
  - by apply sample_T1000_unmapped.
Qed.

(** ** What the counts count (C2) *)

Lemma filter_key_unique {A B} `{!EqDecision B} (f : A → B) (k : B) (l : list A) :
  NoDup (f <$> l) → (length (filter (λ x, f x = k) l) ≤ 1)%nat.
Proof.
  induction l as [|x l IH]; [simpl; lia|].
  rewrite fmap_cons, NoDup_cons. intros [Hx Hl].
  rewrite filter_cons. case_decide as Hk; [|by apply IH].
  assert (filter (λ y, f y = k) l = []) as ->; [|simpl; lia].
  destruct (filter (λ y, f y = k) l) as [|y ys] eqn:Hf; [done|].
  assert (y ∈ filter (λ y, f y = k) l) as [Hy Hin]%list_elem_of_filter
    by (rewrite Hf; constructor).
  destruct Hx. rewrite Hk, <- Hy. by apply list_elem_of_fmap_2.
Qed.

(** With sentence keys unique, the join has one row per mapping row. *)
Lemma left_join_sentence_one (db : Store) (m : SentenceTechniqueMapping.t) :
  NoDup (Sentence.id <$> sentences db) →
  left_join_sentence db m = [(m, sentence_of db m)].
Proof.
  intros Hpk.
  pose proof (filter_key_unique Sentence.id
                (SentenceTechniqueMapping.sentence m) (sentences db) Hpk) as Hlen.
  unfold left_join_sentence, sentence_of.
  destruct (filter _ (sentences db)) as [|s [|s' ss]]; simpl in *; [done..|lia].
Qed.

Lemma sentences_join_rows (db : Store) (t : AttackTechnique.t) :
  NoDup (Sentence.id <$> sentences db) →
  sentences_join db t = (λ m, (m, sentence_of db m)) <$> mappings_to db t.
Proof.
  intros Hpk. unfold sentences_join.
  induction (mappings_to db t) as [|m ms IH]; [done|].
  rewrite !fmap_cons. simpl. by rewrite IH, left_join_sentence_one.
Qed.

Lemma Count_filter_rows (d : option Disposition) (db : Store)
    (ms : list SentenceTechniqueMapping.t) :
  Count_filter d ((λ m, (m, sentence_of db m)) <$> ms)
  = Z.of_nat (length (filter (λ m, disposition_of db m = d) ms)).
Proof.
  unfold Count_filter, Count. f_equal.
  induction ms as [|m ms IH]; [done|].
  rewrite fmap_cons, !filter_cons.
  change (sentences__disposition (m, sentence_of db m)) with (disposition_of db m).
  case_decide; simpl; by rewrite IH.
Qed.

Lemma remove_dups_NoDup_length {A} `{!EqDecision A} (l : list A) :
  NoDup l → length (remove_dups l) = length l.
Proof.
  induction 1 as [|x l Hx Hl IH]; [done|].
  simpl. destruct (decide_rel elem_of x l) as [Hin|_]; [by destruct Hx|].
  simpl. by rewrite IH.
Qed.

Lemma NoDup_fmap_filter {A B} (f : A → B) (P : A → Prop)
    `{!∀ x, Decision (P x)} (l : list A) :
  NoDup (f <$> l) → NoDup (f <$> filter P l).
Proof.
  intros Hl. eapply sublist_NoDup; [done|].
  apply fmap_sublist, sublist_filter.
Qed.

(** C2, as the code has it: with sentence keys unique, [total] is the number
    of mapping rows that target the entry, [accepted] and [pending] the
    number of those rows whose sentence is accepted or has no disposition:
    a sentence/entry pair held by several mapping rows counts once per row.
    When no two rows of the entry share a sentence, the three counts are
    the numbers of distinct associations. *)
Theorem counts_are_per_mapping_row (threshold : Z) (db : Store) (a : Annotated) :
  NoDup (Sentence.id <$> sentences db) →
  a ∈ AttackTechnique_get_sentence_counts threshold db →
  (total_sentences a = Z.of_nat (length (mappings_to db (technique a)))
   ∧ accepted_sentences a
     = Z.of_nat (length (mappings_to_with (Some accept) db (technique a)))
   ∧ pending_sentences a
     = Z.of_nat (length (mappings_to_with None db (technique a))))
  ∧ (NoDup (SentenceTechniqueMapping.sentence <$> mappings_to db (technique a)) →
     total_sentences a
     = Z.of_nat (length (distinct_associations db (technique a)))
     ∧ accepted_sentences a
       = Z.of_nat (length (distinct_associations_with (Some accept) db (technique a)))
     ∧ pending_sentences a
       = Z.of_nat (length (distinct_associations_with None db (technique a)))).
Proof.
  intros Hpk (_ & t & _ & ->)%get_sentence_counts_elem_of. simpl.
  rewrite (sentences_join_rows db t Hpk), !Count_filter_rows.
  unfold Count. rewrite length_fmap.
  split; [done|]. intros Hrows.
  unfold distinct_associations, distinct_associations_with, mappings_to_with.
  rewrite !remove_dups_NoDup_length, !length_fmap;
    [done|by apply NoDup_fmap_filter..|done].
Qed.

Lemma sample_sentence_keys : NoDup (Sentence.id <$> sentences sample_store).
Proof. by_evaluation. Defined.

Lemma counts_are_per_mapping_row_witness :
  (total_sentences (mkAnnotated T1566 2 1 3)
   = Z.of_nat (length (mappings_to sample_store T1566))
   ∧ accepted_sentences (mkAnnotated T1566 2 1 3)
     = Z.of_nat (length (mappings_to_with (Some accept) sample_store T1566))
   ∧ pending_sentences (mkAnnotated T1566 2 1 3)
     = Z.of_nat (length (mappings_to_with None sample_store T1566)))
  ∧ (total_sentences (mkAnnotated T1566 2 1 3)
     = Z.of_nat (length (distinct_associations sample_store T1566))
     ∧ accepted_sentences (mkAnnotated T1566 2 1 3)
       = Z.of_nat (length (distinct_associations_with (Some accept) sample_store T1566))
     ∧ pending_sentences (mkAnnotated T1566 2 1 3)
       = Z.of_nat (length (distinct_associations_with None sample_store T1566))).
Proof.
  destruct (counts_are_per_mapping_row 0 sample_store (mkAnnotated T1566 2 1 3))
    as [Hrows Hdistinct].
  - exact sample_sentence_keys.
  - rewrite sample_counts. in_literal_list.
  - split; [exact Hrows|]. apply Hdistinct.
    by_evaluation.
Defined.

(** On the sample store T1001 has two mapping rows for one sentence: the
    total is 2, the distinct associations are 1. *)
Lemma total_counts_duplicate_rows :
  ¬ (∀ a, a ∈ AttackTechnique_get_sentence_counts 0 sample_store →
          total_sentences a
          = Z.of_nat (length (distinct_associations sample_store (technique a)))).
Proof.
  intros H. specialize (H (mkAnnotated T1001 0 0 2)).
  rewrite sample_counts in H.
  discriminate H. in_literal_list.
Qed.

(** ** The scenario: two accepted, one pending, threshold 2 (C1) *)

Lemma getattr_get_sentence_counts :
  getattr "AttackTechnique" AttackTechnique_counts "get_sentence_counts"
  = Ok AttackTechnique_get_sentence_counts.
Proof. reflexivity. Qed.

Lemma Count_filter_dispositions (d : option Disposition) (rows : list JoinRow) :
  Count_filter d rows
  = Z.of_nat (length (filter (λ x, x = d) (sentences__disposition <$> rows))).
Proof.
  unfold Count_filter, Count. f_equal.
  induction rows as [|r rows IH]; [done|].
  rewrite fmap_cons, !filter_cons. case_decide; simpl; by rewrite IH.
Qed.

(** Every mapping row of a returned technique is an accepted mapping. *)
Lemma get_accepted_mappings_of_returned (config : Config) (db : Store)
    (a : Annotated) :
  a ∈ AttackTechnique_get_sentence_counts (ML_ACCEPT_THRESHOLD config) db →
  ∃ mappings,
    SentenceTechniqueMapping_get_accepted_mappings config db = Ok mappings
    ∧ ∀ m, m ∈ mappings_to db (technique a) → m ∈ mappings.
Proof.
  intros Ha. unfold SentenceTechniqueMapping_get_accepted_mappings.
  rewrite getattr_get_sentence_counts. eexists. split; [done|].
  intros m [Htarget Hm]%list_elem_of_filter.
  apply list_elem_of_filter. split; [|done].
  rewrite Htarget. simpl.
  apply list_elem_of_fmap. by exists a.
Qed.

(** C1: a technique whose join with its mapped sentences has three rows, of
    dispositions accept, accept and none, is returned by
    [get_sentence_counts(2)] with accepted=2, pending=1, total=3, and with
    the configured threshold 2 every mapping row of the technique, the one
    of the pending sentence included, is in [get_accepted_mappings()]. *)
Theorem two_accepted_one_pending (config : Config) (db : Store)
    (t : AttackTechnique.t) :
  t ∈ attack_techniques db →
  sentences__disposition <$> sentences_join db t
    ≡ₚ [Some accept; Some accept; None] →
  ML_ACCEPT_THRESHOLD config = 2 →
  mkAnnotated t 2 1 3 ∈ AttackTechnique_get_sentence_counts 2 db
  ∧ ∃ mappings,
      SentenceTechniqueMapping_get_accepted_mappings config db = Ok mappings
      ∧ ∀ m, m ∈ mappings_to db t → m ∈ mappings.
Proof.
  intros Ht Hrows Hcfg.
  assert (annotate_one db t = mkAnnotated t 2 1 3) as Hone.
  { unfold annotate_one. rewrite !Count_filter_dispositions.
    unfold Count.
    rewrite <- (length_fmap sentences__disposition (sentences_join db t)).
    rewrite !(Permutation_length (filter_Permutation _ _ _ Hrows)).
    by rewrite (Permutation_length Hrows). }
  assert (mkAnnotated t 2 1 3 ∈ AttackTechnique_get_sentence_counts 2 db) as Hin.
  { apply get_sentence_counts_elem_of. split; [done|]. by exists t. }
  split; [done|].
  apply (get_accepted_mappings_of_returned config db (mkAnnotated t 2 1 3)).
  by rewrite Hcfg.
Qed.

Lemma two_accepted_one_pending_witness :
  mkAnnotated T1566 2 1 3 ∈ AttackTechnique_get_sentence_counts 2 sample_store
  ∧ ∃ mappings,
      SentenceTechniqueMapping_get_accepted_mappings (mkConfig 2) sample_store
      = Ok mappings
      ∧ ∀ m, m ∈ mappings_to sample_store T1566 → m ∈ mappings.
Proof.
  apply two_accepted_one_pending.
  - in_literal_list.
  - reflexivity.
  - reflexivity.
Defined.

Example sample_accepted_mappings :
  SentenceTechniqueMapping_get_accepted_mappings (mkConfig 2) sample_store
  = Ok [sample_mapping 1 1 (Some 1); sample_mapping 2 2 (Some 1);
        sample_mapping 3 3 (Some 1)]
  ∧ disposition_of sample_store (sample_mapping 3 3 (Some 1)) = None.
Proof. split; reflexivity. Qed.

(** ** Report-granularity acceptance queries (C3) *)

(** C3, on the code: both report-level [get_accepted_mappings] look up
    [get_report_counts], a name that neither [AttackTechnique] nor
    [AttackGroup] binds; on every store and configuration the call raises
    [AttributeError] and returns no mapping. *)
Theorem report_get_accepted_mappings_raise (config : Config) (db : Store) :
  ReportTechniqueMapping_get_accepted_mappings config db
  = Raise (AttributeError "AttackTechnique" "get_report_counts")
  ∧ ReportGroupMapping_get_accepted_mappings config db
    = Raise (AttributeError "AttackGroup" "get_report_counts").
Proof. split; reflexivity. Qed.

(** X15: the sentence-level query for groups fails the same way:
    [SentenceGroupMapping.get_accepted_mappings] looks up
    [AttackGroup.get_sentence_counts], which [AttackGroup] does not bind, and
    raises [AttributeError] on every store and configuration. *)
Lemma sentence_group_get_accepted_mappings_raise (config : Config) (db : Store) :
  SentenceGroupMapping_get_accepted_mappings config db
  = Raise (AttributeError "AttackGroup" "get_sentence_counts").
Proof. reflexivity. Qed.

(** The sentence-level query for techniques, the one the others copy,
    never raises. *)
Lemma sentence_technique_get_accepted_mappings_ok (config : Config) (db : Store) :
  ∃ mappings,
    SentenceTechniqueMapping_get_accepted_mappings config db = Ok mappings.
Proof.
  unfold SentenceTechniqueMapping_get_accepted_mappings.
  rewrite getattr_get_sentence_counts. by eexists.
Qed.

(** ** [from_mapping] (C8) *)

Lemma filter_none {A} (P : A → Prop) `{!∀ x, Decision (P x)} (l : list A) :
  (∀ x, x ∈ l → ¬ P x) → filter P l = [].
Proof.
  induction l as [|x l IH]; intros Hl; [done|].
  rewrite filter_cons_False by (apply Hl; constructor).
  apply IH. intros y Hy. apply Hl. by constructor.
Qed.

Lemma filter_key_one {A B} `{!EqDecision B} (f : A → B) (l : list A) (x : A) :
  NoDup (f <$> l) → x ∈ l → filter (λ y, f y = f x) l = [x].
Proof.
  intros Hl Hx.
  pose proof (filter_key_unique f (f x) l Hl) as Hlen.
  assert (x ∈ filter (λ y, f y = f x) l) as Hin
    by (by apply list_elem_of_filter).
  destruct (filter (λ y, f y = f x) l) as [|y [|z zs]]; simpl in Hlen.
  - by apply elem_of_nil in Hin.
  - by apply list_elem_of_singleton in Hin as ->.
  - lia.
Qed.

(** C8: when no technique of the registry has the given [attack_id],
    [from_mapping] raises [DoesNotExist] and leaves the store as it was;
    when one has it (ids being unique), [from_mapping] returns a new
    sentence-level mapping with the sentence's report, the sentence, that
    technique and the given confidence, the store again untouched. *)
Theorem from_mapping_lookup (mapping_input : Sentence.t) (mapping : Mapping.t)
    (db : Store) :
  ((∀ t, t ∈ attack_techniques db →
         AttackTechnique.attack_id t ≠ Mapping.attack_technique mapping) →
   SentenceTechniqueMapping_from_mapping mapping_input mapping db
   = (Raise DoesNotExist, db))
  ∧ (∀ t, NoDup (AttackTechnique.attack_id <$> attack_techniques db) →
          t ∈ attack_techniques db →
          AttackTechnique.attack_id t = Mapping.attack_technique mapping →
          ∃ m, SentenceTechniqueMapping_from_mapping mapping_input mapping db
               = (Ok m, db)
               ∧ ∀ pk, m pk
                       = SentenceTechniqueMapping.mk pk
                           (Sentence.report mapping_input)
                           (Sentence.id mapping_input)
                           (Some (AttackTechnique.id t))
                           (Mapping.confidence mapping)).
Proof.
  unfold SentenceTechniqueMapping_from_mapping. split.
  - intros Habsent. by rewrite filter_none.
  - intros t Hunique Ht <-.
    rewrite (filter_key_one AttackTechnique.attack_id _ t Hunique Ht). simpl.
    by eexists.
Qed.

Lemma from_mapping_lookup_witness :
  SentenceTechniqueMapping_from_mapping
    (sample_sentence 3 None) (Mapping.mk 0.5%float "T9999") sample_store
  = (Raise DoesNotExist, sample_store)
  ∧ ∃ m, SentenceTechniqueMapping_from_mapping
           (sample_sentence 3 None) (Mapping.mk 0.5%float "T1001") sample_store
         = (Ok m, sample_store)
         ∧ ∀ pk, m pk = SentenceTechniqueMapping.mk pk 1 3 (Some 2) 0.5%float.
Proof.
  split.
  - apply from_mapping_lookup. intros t Ht.
    repeat (apply elem_of_cons in Ht as [->|Ht]; [discriminate|]).
    by apply elem_of_nil in Ht.
  - apply (proj2 (from_mapping_lookup (sample_sentence 3 None)
                    (Mapping.mk 0.5%float "T1001") sample_store) T1001).
    + by_evaluation.
    + in_literal_list.
    + reflexivity.
Defined.

(** On the sample store [from_mapping] finds T1001 for sentence 3, and
    afterwards the table still holds no mapping of that sentence to that
    technique: nothing was created in the store. *)
Lemma from_mapping_creates_no_row :
  ¬ (∀ t, t ∈ attack_techniques sample_store →
          AttackTechnique.attack_id t = "T1001" →
          ∃ row, row ∈ sentence_technique_mappings
                         (SentenceTechniqueMapping_from_mapping
                            (sample_sentence 3 None)
                            (Mapping.mk 0.5%float "T1001") sample_store).2
                 ∧ SentenceTechniqueMapping.sentence row = 3
                 ∧ SentenceTechniqueMapping.attack_technique row
                   = Some (AttackTechnique.id t)).
Proof.
  intros H. destruct (H T1001) as (row & Hrow & Hs & Ht);
    [in_literal_list|reflexivity|].
  each_row Hrow ltac:(vm_compute in Hs, Ht; first [discriminate Hs|discriminate Ht]).
Qed.

(** ** Accepted, pending and rejected make up the total (C5) *)

Lemma sentence_of_member (db : Store) (m : SentenceTechniqueMapping.t)
    (s : Sentence.t) :
  NoDup (Sentence.id <$> sentences db) → s ∈ sentences db →
  SentenceTechniqueMapping.sentence m = Sentence.id s →
  sentence_of db m = Some s.
Proof.
  intros Hpk Hs Hm. unfold sentence_of.
  by rewrite Hm, (filter_key_one Sentence.id _ s Hpk Hs).
Qed.

Lemma sentence_of_found (db : Store) (m : SentenceTechniqueMapping.t)
    (s : Sentence.t) :
  sentence_of db m = Some s →
  s ∈ sentences db ∧ Sentence.id s = SentenceTechniqueMapping.sentence m.
Proof.
  unfold sentence_of. intros Hhead.
  assert (s ∈ filter (λ s, Sentence.id s = SentenceTechniqueMapping.sentence m)
                     (sentences db)) as Hin
    by (destruct (filter _ (sentences db)); simplify_eq/=; constructor).
  apply list_elem_of_filter in Hin. tauto.
Qed.

(** With sentence keys unique and no sentence mapped twice to the
    technique, the rejected mapping rows are as many as the rejected
    sentences mapped to it. *)
Lemma rejected_rows_are_sentences (db : Store) (t : AttackTechnique.t) :
  NoDup (Sentence.id <$> sentences db) →
  NoDup (SentenceTechniqueMapping.sentence <$> mappings_to db t) →
  rejected_rows db t = rejected_but_present db t.
Proof.
  intros Hpk Hrows. unfold rejected_rows, rejected_but_present.
  rewrite (sentences_join_rows db t Hpk), Count_filter_rows. f_equal.
  rewrite <- (length_fmap SentenceTechniqueMapping.sentence).
  rewrite <- (length_fmap Sentence.id
                (filter (λ s, Sentence.disposition s = Some reject
                              ∧ mapped_to db t s) (sentences db))).
  apply Permutation_length, NoDup_Permutation.
  - by apply NoDup_fmap_filter.
  - by apply NoDup_fmap_filter.
  - intros k. rewrite !list_elem_of_fmap. split.
    + intros (m & -> & [Hd Hm]%list_elem_of_filter).
      unfold disposition_of in Hd.
      destruct (sentence_of db m) as [s|] eqn:Hs; [|done].
      apply sentence_of_found in Hs as [Hin Hid].
      exists s. split; [done|]. apply list_elem_of_filter.
      split; [|done]. split; [done|].
      apply Exists_exists. by exists m.
    + intros (s & -> & [[Hd Hmapped] Hs]%list_elem_of_filter).
      apply Exists_exists in Hmapped as (m & Hm & Hid).
      exists m. split; [done|]. apply list_elem_of_filter. split; [|done].
      unfold disposition_of. by rewrite (sentence_of_member db m s Hpk Hs Hid).
Qed.

(** C5, as the code has it: for every entry that [get_sentence_counts]
    returns, on every store, accepted + pending + rejected = total, where
    rejected counts the mapping rows of the entry whose sentence has
    disposition [reject], a sentence mapped by several rows once per row
    like the other counts.  When sentence keys are unique and no two
    mapping rows of the entry share a sentence, rejected is the number of
    sentences with disposition [reject] mapped to the entry, and the
    identity holds with rejected-but-present. *)
Theorem counts_add_up (threshold : Z) (db : Store) (a : Annotated) :
  a ∈ AttackTechnique_get_sentence_counts threshold db →
  accepted_sentences a + pending_sentences a
  + rejected_rows db (technique a) = total_sentences a
  ∧ (NoDup (Sentence.id <$> sentences db) →
     NoDup (SentenceTechniqueMapping.sentence <$> mappings_to db (technique a)) →
     accepted_sentences a + pending_sentences a
     + rejected_but_present db (technique a) = total_sentences a).
Proof.
  intros (_ & t & _ & ->)%get_sentence_counts_elem_of. simpl.
  split; [apply Count_by_disposition|].
  intros Hpk Hrows.
  rewrite <- (rejected_rows_are_sentences db t Hpk Hrows).
  apply Count_by_disposition.
Qed.

Lemma counts_add_up_witness :
  accepted_sentences (mkAnnotated T1566 2 1 3)
  + pending_sentences (mkAnnotated T1566 2 1 3)
  + rejected_rows sample_store (technique (mkAnnotated T1566 2 1 3))
  = total_sentences (mkAnnotated T1566 2 1 3)
  ∧ accepted_sentences (mkAnnotated T1566 2 1 3)
    + pending_sentences (mkAnnotated T1566 2 1 3)
    + rejected_but_present sample_store (technique (mkAnnotated T1566 2 1 3))
    = total_sentences (mkAnnotated T1566 2 1 3).
Proof.
  destruct (counts_add_up 0 sample_store (mkAnnotated T1566 2 1 3))
    as [Hrows Hsentences].
  - rewrite sample_counts. in_literal_list.
  - split; [exact Hrows|]. apply Hsentences; by_evaluation.
Defined.

(** On the sample store T1001 has two mapping rows to one rejected
    sentence: accepted 0, pending 0, one rejected sentence, total 2. *)
Lemma counts_do_not_add_up_per_sentence :
  ¬ (∀ a, a ∈ AttackTechnique_get_sentence_counts 0 sample_store →
          accepted_sentences a + pending_sentences a
          + rejected_but_present sample_store (technique a)
          = total_sentences a).
Proof.
  intros H. specialize (H (mkAnnotated T1001 0 0 2)).
  rewrite sample_counts in H.
  discriminate H. in_literal_list.
Qed.

(** ** Cleanup of the backing file (C9) *)

Section Cleanup.

Variable realpath : string → string.
Variable unlink_error : string → option Exception.
Variable storage_path : string → result string.

Local Abbreviation isfile := (os_path_isfile realpath).
Local Abbreviation delete_file := (_delete_file realpath unlink_error).
Local Abbreviation receiver :=
  (delete_file_post_delete realpath unlink_error storage_path).

Lemma delete_file_missing (path : string) (fs : FileSystem) :
  isfile fs path = false → delete_file path fs = (Ok tt, fs).
Proof. unfold _delete_file. by intros ->. Qed.

(** What [_delete_file] does, case by case: nothing where the path is not
    a file, the removal where the system allows it, the system's error and
    nothing else where it does not. *)
Lemma delete_file_cases (path : string) (fs : FileSystem) :
  (isfile fs path = false ∧ delete_file path fs = (Ok tt, fs))
  ∨ (isfile fs path = true ∧ unlink_error (realpath path) = None
     ∧ delete_file path fs = (Ok tt, delete (realpath path) fs))
  ∨ (∃ e, isfile fs path = true ∧ unlink_error (realpath path) = Some e
          ∧ delete_file path fs = (Raise e, fs)).
Proof.
  unfold _delete_file, os_remove, os_path_isfile.
  destruct (fs !! realpath path) as [[content|]|]; [|by left..].
  destruct (unlink_error (realpath path)) as [e|]; [|by right; left].
  right. right. by exists e.
Qed.

Lemma isfile_delete (path : string) (fs : FileSystem) :
  isfile (delete (realpath path) fs) path = false.
Proof. unfold os_path_isfile. by rewrite lookup_delete_eq. Qed.

(** After a [_delete_file] that returned, the path is not a file. *)
Lemma delete_file_gone (path : string) (fs : FileSystem) :
  (delete_file path fs).1 = Ok tt →
  isfile (delete_file path fs).2 path = false.
Proof.
  destruct (delete_file_cases path fs)
    as [[Hno ->]|[(_ & _ & ->)|(e & _ & _ & ->)]]; simpl;
    [done|by rewrite isfile_delete|done].
Qed.

(** Cleanup is idempotent on every file system: a second call answers as
    the first did and changes nothing more. *)
Lemma delete_file_twice (path : string) (fs : FileSystem) :
  delete_file path (delete_file path fs).2 = delete_file path fs.
Proof.
  destruct (delete_file_cases path fs)
    as [[Hno ->]|[(_ & _ & ->)|(e & Hyes & He & ->)]]; simpl.
  - by apply delete_file_missing.
  - by rewrite delete_file_missing by apply isfile_delete.
  - unfold _delete_file, os_remove. rewrite Hyes.
    unfold os_path_isfile in Hyes.
    destruct (fs !! realpath path) as [[]|]; try done. by rewrite He.
Qed.

(** C9: when the path does not resolve to an existing file, the cleanup
    raises nothing and changes nothing, the first time and the second, both
    for [_delete_file] and for the [post_delete] receiver of a document
    stored at that path. *)
Theorem cleanup_missing_path_noop (instance : Document.t) (path : string)
    (fs : FileSystem) :
  isfile fs path = false →
  storage_path (File.name (Document.docfile instance)) = Ok path →
  (delete_file path fs = (Ok tt, fs)
   ∧ delete_file path (delete_file path fs).2 = (Ok tt, fs))
  ∧ (receiver instance fs = (Ok tt, fs)
     ∧ receiver instance (receiver instance fs).2 = (Ok tt, fs)).
Proof.
  intros Hmissing Hpath.
  assert (delete_file path fs = (Ok tt, fs)) as Hd
    by by apply delete_file_missing.
  assert (receiver instance fs = (Ok tt, fs)) as Hr.
  { unfold delete_file_post_delete. rewrite Hpath, Hd. by case docfile_bool. }
  by rewrite Hd, Hr.
Qed.

End Cleanup.

Lemma cleanup_missing_path_noop_witness :
  (_delete_file sample_realpath sample_unlink_error "/media/report.pdf" sample_fs
   = (Ok tt, sample_fs)
   ∧ _delete_file sample_realpath sample_unlink_error "/media/report.pdf"
       (_delete_file sample_realpath sample_unlink_error "/media/report.pdf"
          sample_fs).2
     = (Ok tt, sample_fs))
  ∧ (delete_file_post_delete sample_realpath sample_unlink_error
       sample_storage_path sample_document sample_fs
     = (Ok tt, sample_fs)
     ∧ delete_file_post_delete sample_realpath sample_unlink_error
         sample_storage_path sample_document
         (delete_file_post_delete sample_realpath sample_unlink_error
            sample_storage_path sample_document sample_fs).2
       = (Ok tt, sample_fs)).
Proof.
  apply cleanup_missing_path_noop; reflexivity.
Defined.

(** ** [create_from_file] (C10) *)

Lemma foldr_max_ge (pks : list Z) (k : Z) : k ∈ pks → k ≤ foldr Z.max 0 pks.
Proof.
  induction pks as [|x pks IH]; [by intros ?%elem_of_nil|].
  intros [->|Hk]%elem_of_cons; simpl; [lia|].
  specialize (IH Hk). lia.
Qed.

Lemma next_pk_fresh (pks : list Z) : next_pk pks ∉ pks.
Proof.
  intros Hin%foldr_max_ge. unfold next_pk in Hin. lia.
Qed.

Section CreateFromFile.

Variable storage_save : File.t → FileSystem → result string * FileSystem.

Local Abbreviation pre_save := (FileField_pre_save storage_save).
Local Abbreviation create_from_file :=
  (DocumentProcessingJob_create_from_file storage_save).

(** [create_from_file] on a [File], by what [pre_save] answers. *)
Lemma create_from_file_File (file : File.t) (db : Store) (fs : FileSystem) :
  match pre_save file fs with
  | (Raise e, fs') => create_from_file (PyFile file) db fs = (Raise e, db, fs')
  | (Ok stored, fs') =>
      ∃ dpj db', create_from_file (PyFile file) db fs = (Ok dpj, db', fs')
                 ∧ created_document_and_job db db' stored dpj
  end.
Proof.
  unfold DocumentProcessingJob_create_from_file, Document_save. simpl.
  destruct (pre_save file fs) as [[stored|e] fs']; [|done].
  simpl. do 2 eexists. split; [done|].
  eexists. simpl. repeat split; apply next_pk_fresh.
Qed.

(** C10, as the code has it: an [f] that is not a [File] fails the
    assertion, and a [File] with a name that the storage refuses raises
    the storage's exception; either way the store is left as it was, no
    document and no job added.  For a [File] that the storage accepts the
    store gains one document, holding the content of [f] under the name
    the storage returned, and one job that references that document with
    status [queued], and that job is returned; a [File] without a name
    does not go to the storage and is held as it is. *)
Theorem create_from_file_spec (f : PyObject) (db : Store) (fs : FileSystem) :
  (isinstance_File f = false →
   create_from_file f db fs = (Raise AssertionError, db, fs))
  ∧ (∀ file e fs',
       f = PyFile file → File.name file ≠ EmptyString →
       storage_save file fs = (Raise e, fs') →
       create_from_file f db fs = (Raise e, db, fs'))
  ∧ (∀ file name fs',
       f = PyFile file → File.name file ≠ EmptyString →
       storage_save file fs = (Ok name, fs') →
       ∃ dpj db',
         create_from_file f db fs = (Ok dpj, db', fs')
         ∧ created_document_and_job db db'
             (File.mk name (File.content file)) dpj)
  ∧ (∀ file,
       f = PyFile file → File.name file = EmptyString →
       ∃ dpj db',
         create_from_file f db fs = (Ok dpj, db', fs)
         ∧ created_document_and_job db db' file dpj).
Proof.
  split; [by destruct f|].
  split; [|split].
  - intros file e fs' -> Hname Hsave.
    pose proof (create_from_file_File file db fs) as H.
    unfold FileField_pre_save, docfile_bool in H.
    rewrite decide_False, Hsave in H by done. exact H.
  - intros file name fs' -> Hname Hsave.
    pose proof (create_from_file_File file db fs) as H.
    unfold FileField_pre_save, docfile_bool in H.
    rewrite decide_False, Hsave in H by done. exact H.
  - intros file -> Hname.
    pose proof (create_from_file_File file db fs) as H.
    unfold FileField_pre_save, docfile_bool in H.
    rewrite decide_True in H by done. exact H.
Qed.

End CreateFromFile.

Lemma create_from_file_spec_witness :
  DocumentProcessingJob_create_from_file sample_storage_save
    (PyStr "report.pdf") sample_store ∅
  = (Raise AssertionError, sample_store, ∅)
  ∧ DocumentProcessingJob_create_from_file sample_storage_save
      (PyFile (File.mk "/tmp/validate_upload/report.pdf" [])) sample_store ∅
    = (Raise SuspiciousFileOperation, sample_store, ∅)
  ∧ ∃ dpj db',
      DocumentProcessingJob_create_from_file sample_storage_save
        (PyFile (File.mk "report.pdf" [])) sample_store sample_fs_stored
      = (Ok dpj, db',
         <["/media/report.pdf_1" := RegularFile []]> sample_fs_stored)
      ∧ created_document_and_job sample_store db'
          (File.mk "report.pdf_1" []) dpj.
Proof.
  split; [|split].
  - apply create_from_file_spec. reflexivity.
  - eapply (proj1 (proj2 (create_from_file_spec sample_storage_save
                            (PyFile (File.mk "/tmp/validate_upload/report.pdf" []))
                            sample_store ∅)));
      [reflexivity|discriminate|reflexivity].
  - apply (proj1 (proj2 (proj2 (create_from_file_spec sample_storage_save
                                  (PyFile (File.mk "report.pdf" []))
                                  sample_store sample_fs_stored)))
             (File.mk "report.pdf" []) "report.pdf_1"
             (<["/media/report.pdf_1" := RegularFile []]> sample_fs_stored));
      [reflexivity|discriminate|reflexivity].
Defined.

(** The sample storage refuses a file whose name has a path in it:
    [create_from_file] raises and no document is persisted. *)
Lemma create_from_file_refused :
  ¬ (∀ file, ∃ dpj db' fs',
       DocumentProcessingJob_create_from_file sample_storage_save
         (PyFile file) sample_store ∅ = (Ok dpj, db', fs')
       ∧ created_document_and_job sample_store db' file dpj).
Proof.
  intros H.
  destruct (H (File.mk "/tmp/validate_upload/report.pdf" []))
    as (dpj & db' & fs' & Hcall & _).
  discriminate Hcall.
Qed.

(** * Further properties of the code *)

(** ** [SentenceTechniqueMapping.get_accepted_mappings] *)

(** The primary keys of the techniques that [get_sentence_counts] returns. *)
Lemma pk_in_get_sentence_counts (threshold : Z) (db : Store) (fk : option Z) :
  pk_in fk (AttackTechnique.id ∘ technique
            <$> AttackTechnique_get_sentence_counts threshold db)
  ↔ ∃ t, t ∈ attack_techniques db
         ∧ fk = Some (AttackTechnique.id t)
         ∧ threshold ≤ accepted_sentences (annotate_one db t).
Proof.
  destruct fk as [k|]; simpl.
  - rewrite list_elem_of_fmap. split.
    + intros (a & -> & (Hth & t & Ht & ->)%get_sentence_counts_elem_of).
      by exists t.
    + intros (t & Ht & [= ->] & Hth). exists (annotate_one db t).
      split; [done|]. apply get_sentence_counts_elem_of. eauto.
  - split; [done|]. by intros (t & _ & ? & _).
Qed.

Lemma get_accepted_mappings_filter (config : Config) (db : Store) :
  SentenceTechniqueMapping_get_accepted_mappings config db
  = Ok (filter (λ m, pk_in (SentenceTechniqueMapping.attack_technique m)
                           (AttackTechnique.id ∘ technique
                            <$> AttackTechnique_get_sentence_counts
                                  (ML_ACCEPT_THRESHOLD config) db))
               (sentence_technique_mappings db)).
Proof.
  unfold SentenceTechniqueMapping_get_accepted_mappings.
  by rewrite getattr_get_sentence_counts.
Qed.

(** X1: when [get_accepted_mappings] returns, the mapping rows it returns
    are exactly the rows of the table whose target is a technique of the
    registry with at least [ML_ACCEPT_THRESHOLD] accepted sentences; the
    disposition of the row's own sentence plays no part, and a row without
    a target is never among them. *)
Theorem get_accepted_mappings_exactly (config : Config) (db : Store)
    (mappings : list SentenceTechniqueMapping.t) :
  SentenceTechniqueMapping_get_accepted_mappings config db = Ok mappings →
  (∀ m, m ∈ mappings ↔
        m ∈ sentence_technique_mappings db
        ∧ ∃ t, t ∈ attack_techniques db
               ∧ SentenceTechniqueMapping.attack_technique m
                 = Some (AttackTechnique.id t)
               ∧ ML_ACCEPT_THRESHOLD config
                 ≤ accepted_sentences (annotate_one db t))
  ∧ (∀ m, m ∈ mappings →
          SentenceTechniqueMapping.attack_technique m ≠ None).
Proof.
  rewrite get_accepted_mappings_filter. intros [= <-].
  split.
  - intros m. rewrite list_elem_of_filter, pk_in_get_sentence_counts. tauto.
  - intros m [Hpk _]%list_elem_of_filter Hnone. by rewrite Hnone in Hpk.
Qed.

Lemma get_accepted_mappings_exactly_witness :
  (∀ m, m ∈ [sample_mapping 1 1 (Some 1); sample_mapping 2 2 (Some 1);
             sample_mapping 3 3 (Some 1)] ↔
        m ∈ sentence_technique_mappings sample_store
        ∧ ∃ t, t ∈ attack_techniques sample_store
               ∧ SentenceTechniqueMapping.attack_technique m
                 = Some (AttackTechnique.id t)
               ∧ 2 ≤ accepted_sentences (annotate_one sample_store t))
  ∧ (∀ m, m ∈ [sample_mapping 1 1 (Some 1); sample_mapping 2 2 (Some 1);
               sample_mapping 3 3 (Some 1)] →
          SentenceTechniqueMapping.attack_technique m ≠ None).
Proof.
  apply (get_accepted_mappings_exactly (mkConfig 2) sample_store).
  reflexivity.
Defined.

(** X2: a larger threshold returns a sub-list of what a smaller one
    returns, on the same store. *)
Theorem get_accepted_mappings_monotone (config1 config2 : Config) (db : Store)
    (mappings1 mappings2 : list SentenceTechniqueMapping.t) :
  ML_ACCEPT_THRESHOLD config1 ≤ ML_ACCEPT_THRESHOLD config2 →
  SentenceTechniqueMapping_get_accepted_mappings config1 db = Ok mappings1 →
  SentenceTechniqueMapping_get_accepted_mappings config2 db = Ok mappings2 →
  mappings2 `sublist_of` mappings1.
Proof.
  intros Hle. rewrite !get_accepted_mappings_filter.
  intros [= <-] [= <-].
  rewrite <- (list_filter_filter_l
    (λ m, pk_in (SentenceTechniqueMapping.attack_technique m)
                (AttackTechnique.id ∘ technique
                 <$> AttackTechnique_get_sentence_counts
                       (ML_ACCEPT_THRESHOLD config2) db))
    (λ m, pk_in (SentenceTechniqueMapping.attack_technique m)
                (AttackTechnique.id ∘ technique
                 <$> AttackTechnique_get_sentence_counts
                       (ML_ACCEPT_THRESHOLD config1) db))).
  - apply sublist_filter.
  - intros m. rewrite !pk_in_get_sentence_counts.
    intros (t & Ht & E & Hth). exists t. split; [done|]. split; [done|]. lia.
Qed.

Lemma get_accepted_mappings_monotone_witness :
  [sample_mapping 1 1 (Some 1); sample_mapping 2 2 (Some 1);
   sample_mapping 3 3 (Some 1)]
  `sublist_of`
  [sample_mapping 1 1 (Some 1); sample_mapping 2 2 (Some 1);
   sample_mapping 3 3 (Some 1); sample_mapping 4 4 (Some 2);
   sample_mapping 5 4 (Some 2)].
Proof.
  apply (get_accepted_mappings_monotone (mkConfig 0) (mkConfig 2) sample_store).
  - discriminate.
  - reflexivity.
  - reflexivity.
Defined.

(** X3: when the threshold is above the accepted count of every technique,
    [get_accepted_mappings] returns no mapping at all. *)
Theorem get_accepted_mappings_none (config : Config) (db : Store) :
  (∀ t, t ∈ attack_techniques db →
        accepted_sentences (annotate_one db t) < ML_ACCEPT_THRESHOLD config) →
  SentenceTechniqueMapping_get_accepted_mappings config db = Ok [].
Proof.
  intros Hbelow. rewrite get_accepted_mappings_filter. f_equal.
  apply filter_none. intros m _.
  rewrite pk_in_get_sentence_counts. intros (t & Ht & _ & Hth).
  specialize (Hbelow t Ht). lia.
Qed.

Lemma get_accepted_mappings_none_witness :
  SentenceTechniqueMapping_get_accepted_mappings (mkConfig 3) sample_store
  = Ok [].
Proof.
  apply get_accepted_mappings_none. intros t Ht. simpl in Ht.
  repeat (apply elem_of_cons in Ht as [->|Ht]; [reflexivity|]).
  by apply elem_of_nil in Ht.
Defined.

(** X4: with a threshold of zero or less, and every target a technique of
    the registry, [get_accepted_mappings] returns every mapping row that
    has a target, the rows of rejected sentences included. *)
Theorem get_accepted_mappings_zero (config : Config) (db : Store) :
  ML_ACCEPT_THRESHOLD config ≤ 0 →
  (∀ m k, m ∈ sentence_technique_mappings db →
          SentenceTechniqueMapping.attack_technique m = Some k →
          k ∈ AttackTechnique.id <$> attack_techniques db) →
  SentenceTechniqueMapping_get_accepted_mappings config db
  = Ok (filter (λ m, is_Some (SentenceTechniqueMapping.attack_technique m))
               (sentence_technique_mappings db)).
Proof.
  intros Hth Hfk. rewrite get_accepted_mappings_filter. f_equal.
  induction (sentence_technique_mappings db) as [|m ms IH]; [done|].
  rewrite !filter_cons, IH
    by (intros m' k Hm'; apply Hfk; by constructor).
  assert (pk_in (SentenceTechniqueMapping.attack_technique m)
                (AttackTechnique.id ∘ technique
                 <$> AttackTechnique_get_sentence_counts
                       (ML_ACCEPT_THRESHOLD config) db)
          ↔ is_Some (SentenceTechniqueMapping.attack_technique m)) as Hiff.
  { rewrite pk_in_get_sentence_counts. split.
    - intros (t & _ & -> & _). by eexists.
    - intros [k Hk].
      assert (k ∈ AttackTechnique.id <$> attack_techniques db) as Hin
        by (apply (Hfk m k); [by constructor|done]).
      apply list_elem_of_fmap in Hin as (t & -> & Ht).
      exists t. split; [done|]. split; [done|].
      pose proof (accepted_sentences_nonneg db t). lia. }
  repeat case_decide; tauto.
Qed.

Lemma get_accepted_mappings_zero_witness :
  SentenceTechniqueMapping_get_accepted_mappings (mkConfig 0) sample_store
  = Ok [sample_mapping 1 1 (Some 1); sample_mapping 2 2 (Some 1);
        sample_mapping 3 3 (Some 1); sample_mapping 4 4 (Some 2);
        sample_mapping 5 4 (Some 2)]
  ∧ disposition_of sample_store (sample_mapping 4 4 (Some 2)) = Some reject.
Proof.
  split; [|reflexivity].
  apply (get_accepted_mappings_zero (mkConfig 0) sample_store).
  - discriminate.
  - intros m k Hm Hk. simpl in Hm.
    repeat (apply elem_of_cons in Hm as [->|Hm];
      [vm_compute in Hk; try discriminate Hk; injection Hk as <-;
       in_literal_list|]).
    by apply elem_of_nil in Hm.
Defined.

(** ** [AttackTechnique.get_sentence_counts]: what it reads *)

Lemma mappings_to_targeted (db : Store) (t : AttackTechnique.t) :
  mappings_to db t
  = filter (λ m, SentenceTechniqueMapping.attack_technique m
                 = Some (AttackTechnique.id t))
           (filter (λ m, is_Some (SentenceTechniqueMapping.attack_technique m))
                   (sentence_technique_mappings db)).
Proof.
  unfold mappings_to. rewrite list_filter_filter_l; [done|].
  intros m ->. by eexists.
Qed.

Lemma annotate_one_reads (db db' : Store) (t : AttackTechnique.t) :
  sentences db = sentences db' →
  filter (λ m, is_Some (SentenceTechniqueMapping.attack_technique m))
         (sentence_technique_mappings db)
  = filter (λ m, is_Some (SentenceTechniqueMapping.attack_technique m))
           (sentence_technique_mappings db') →
  annotate_one db t = annotate_one db' t.
Proof.
  intros Hs Hm.
  assert (sentences_join db t = sentences_join db' t) as Hj.
  { unfold sentences_join. rewrite !mappings_to_targeted, Hm. f_equal.
    apply list_fmap_ext. intros _ m _.
    unfold left_join_sentence. by rewrite Hs. }
  unfold annotate_one. by rewrite Hj.
Qed.

(** X5: [get_sentence_counts] reads the techniques, the sentences and the
    mapping rows that have a technique, and nothing else: two stores that
    agree on these give the same output, whatever their mapping rows
    without a target and their other tables. *)
Theorem get_sentence_counts_reads (threshold : Z) (db db' : Store) :
  attack_techniques db = attack_techniques db' →
  sentences db = sentences db' →
  filter (λ m, is_Some (SentenceTechniqueMapping.attack_technique m))
         (sentence_technique_mappings db)
  = filter (λ m, is_Some (SentenceTechniqueMapping.attack_technique m))
           (sentence_technique_mappings db') →
  AttackTechnique_get_sentence_counts threshold db
  = AttackTechnique_get_sentence_counts threshold db'.
Proof.
  intros Ht Hs Hm. unfold AttackTechnique_get_sentence_counts, annotate.
  rewrite <- Ht. do 2 f_equal.
  apply list_fmap_ext. intros _ t _. by apply annotate_one_reads.
Qed.

Lemma NoDup_fmap_eq {A B} (f : A → B) (l : list A) (x y : A) :
  NoDup (f <$> l) → x ∈ l → y ∈ l → f x = f y → x = y.
Proof.
  induction l as [|z l IH]; [by intros _ ?%elem_of_nil|].
  rewrite fmap_cons, NoDup_cons. intros [Hz Hl].
  intros [->|Hx]%elem_of_cons [->|Hy]%elem_of_cons E; [done| | |by apply IH].
  - destruct Hz. rewrite E. by apply list_elem_of_fmap_2.
  - destruct Hz. rewrite <- E. by apply list_elem_of_fmap_2.
Qed.

(** X6: with [attack_id] unique, the output does not depend on the order
    in which the technique table holds its rows: the ordering by accepted
    count and [attack_id] leaves no tie to the storage. *)
Theorem get_sentence_counts_row_order (threshold : Z) (db db' : Store) :
  NoDup (AttackTechnique.attack_id <$> attack_techniques db) →
  attack_techniques db ≡ₚ attack_techniques db' →
  sentences db = sentences db' →
  sentence_technique_mappings db = sentence_technique_mappings db' →
  AttackTechnique_get_sentence_counts threshold db
  = AttackTechnique_get_sentence_counts threshold db'.
Proof.
  intros Hid Ht Hs Hm. unfold AttackTechnique_get_sentence_counts. f_equal.
  assert (annotate db' = annotate_one db <$> attack_techniques db') as Ha'.
  { apply list_fmap_ext. intros _ t _. symmetry.
    apply annotate_one_reads; [done|by rewrite Hm]. }
  apply (StronglySorted_unique_strong before);
    [|apply order_by_sorted..|].
  - intros a1 a2.
    rewrite !order_by_Permutation, Ha'. unfold annotate. rewrite <- Ht.
    intros (t1 & -> & Ht1)%list_elem_of_fmap (t2 & -> & Ht2)%list_elem_of_fmap.
    intros [H12|[E12 H12]] [H21|[E21 H21]]; simpl in *; try lia.
    f_equal. apply (NoDup_fmap_eq AttackTechnique.attack_id _ _ _ Hid Ht1 Ht2).
    by apply String.leb_antisym.
  - rewrite !order_by_Permutation, Ha'. unfold annotate. by rewrite Ht.
Qed.

Lemma get_sentence_counts_row_order_witness :
  AttackTechnique_get_sentence_counts 0 sample_store
  = AttackTechnique_get_sentence_counts 0
      (mkStore [T1000; T1566; T1001] [] [] [] (reports sample_store)
         (sentences sample_store) (sentence_technique_mappings sample_store)
         [] [] []).
Proof.
  apply get_sentence_counts_row_order.
  - by_evaluation.
  - simpl. change [T1566; T1001; T1000] with (([T1566; T1001] ++ [T1000])%list).
    apply Permutation_app_comm.
  - reflexivity.
  - reflexivity.
Defined.

Lemma get_sentence_counts_reads_witness :
  AttackTechnique_get_sentence_counts 0 sample_store
  = AttackTechnique_get_sentence_counts 0
      (mkStore (attack_techniques sample_store) []
         [Document.mk 1 (File.mk "report.pdf" []) None] []
         [] (sentences sample_store)
         [sample_mapping 1 1 (Some 1); sample_mapping 2 2 (Some 1);
          sample_mapping 3 3 (Some 1); sample_mapping 4 4 (Some 2);
          sample_mapping 5 4 (Some 2)]
         [] [] []).
Proof. apply get_sentence_counts_reads; reflexivity. Defined.

(** X7: when the technique table holds no row twice, no technique is
    returned twice. *)
Theorem get_sentence_counts_NoDup (threshold : Z) (db : Store) :
  NoDup (attack_techniques db) →
  NoDup (technique <$> AttackTechnique_get_sentence_counts threshold db).
Proof.
  intros Hnd. unfold AttackTechnique_get_sentence_counts.
  eapply sublist_NoDup; [|apply fmap_sublist, sublist_filter].
  by rewrite order_by_Permutation, annotate_technique.
Qed.

Lemma get_sentence_counts_NoDup_witness :
  NoDup (technique <$> AttackTechnique_get_sentence_counts 0 sample_store).
Proof.
  apply get_sentence_counts_NoDup. simpl.
  repeat (apply NoDup_cons; split;
    [intros Hin;
     repeat (apply elem_of_cons in Hin as [Hin|Hin]; [discriminate Hin|]);
     by apply elem_of_nil in Hin|]).
  apply NoDup_nil_2.
Defined.

(** ** [from_mapping], then [save()] *)

Lemma Count_filter_snoc (d : option Disposition) (rows : list JoinRow)
    (r : JoinRow) :
  Count_filter d (rows ++ [r])
  = Count_filter d rows
    + (if decide (sentences__disposition r = d) then 1 else 0).
Proof.
  unfold Count_filter, Count. rewrite filter_app, length_app, filter_cons.
  case_decide; simpl; lia.
Qed.

(** The join of [t] once one more mapping row [r] is in the table. *)
Lemma sentences_join_save (new : Unsaved SentenceTechniqueMapping.t)
    (db : Store) (t : AttackTechnique.t) :
  NoDup (Sentence.id <$> sentences db) →
  sentences_join (SentenceTechniqueMapping_save new db).2 t
  = (sentences_join db t
     ++ if decide (SentenceTechniqueMapping.attack_technique
                     (SentenceTechniqueMapping_save new db).1
                   = Some (AttackTechnique.id t))
        then [((SentenceTechniqueMapping_save new db).1,
               sentence_of db (SentenceTechniqueMapping_save new db).1)]
        else [])%list.
Proof.
  intros Hpk.
  rewrite (sentences_join_rows _ t) by done.
  rewrite (sentences_join_rows db t) by done.
  unfold mappings_to. simpl.
  rewrite filter_app, fmap_app, filter_cons, filter_nil.
  by case_decide.
Qed.

(** X8: when the mapping that [from_mapping] returns for a sentence of the
    store is saved, [get_sentence_counts] sees it at once: the total of the
    technique found goes up by one, its accepted (pending) count goes up by
    one when the sentence is accepted (has no disposition) and stays
    otherwise, and the counts of every other technique are unchanged. *)
Theorem from_mapping_saved_counts (mapping_input : Sentence.t)
    (mapping : Mapping.t) (db : Store) (t : AttackTechnique.t) :
  NoDup (Sentence.id <$> sentences db) →
  mapping_input ∈ sentences db →
  NoDup (AttackTechnique.attack_id <$> attack_techniques db) →
  t ∈ attack_techniques db →
  AttackTechnique.attack_id t = Mapping.attack_technique mapping →
  ∃ new,
    SentenceTechniqueMapping_from_mapping mapping_input mapping db = (Ok new, db)
    ∧ let db' := (SentenceTechniqueMapping_save new db).2 in
      total_sentences (annotate_one db' t)
      = total_sentences (annotate_one db t) + 1
      ∧ accepted_sentences (annotate_one db' t)
        = accepted_sentences (annotate_one db t)
          + match Sentence.disposition mapping_input with
            | Some accept => 1
            | _ => 0
            end
      ∧ pending_sentences (annotate_one db' t)
        = pending_sentences (annotate_one db t)
          + match Sentence.disposition mapping_input with
            | None => 1
            | _ => 0
            end
      ∧ ∀ t', AttackTechnique.id t' ≠ AttackTechnique.id t →
              annotate_one db' t' = annotate_one db t'.
Proof.
  intros Hpk Hs Hid Ht Hattack.
  unfold SentenceTechniqueMapping_from_mapping.
  rewrite <- Hattack, (filter_key_one AttackTechnique.attack_id _ t Hid Ht).
  simpl objects_get. cbv iota beta.
  eexists. split; [done|]. cbv zeta.
  match goal with
  | |- context [SentenceTechniqueMapping_save ?f db] => set (new := f)
  end.
  assert (sentence_of db (SentenceTechniqueMapping_save new db).1
          = Some mapping_input) as Hsent
    by (by apply sentence_of_member).
  assert (∀ t', annotate_one (SentenceTechniqueMapping_save new db).2 t'
                = let rows := (sentences_join db t'
                     ++ if decide (Some (AttackTechnique.id t)
                                   = Some (AttackTechnique.id t'))
                        then [((SentenceTechniqueMapping_save new db).1,
                               Some mapping_input)]
                        else [])%list in
                  mkAnnotated t' (Count_filter (Some accept) rows)
                    (Count_filter None rows) (Count rows)) as Hone.
  { intros t'. unfold annotate_one.
    by rewrite (sentences_join_save new db t' Hpk), Hsent. }
  repeat split.
  - rewrite Hone. rewrite decide_True by done. simpl.
    unfold Count. rewrite length_app. simpl. lia.
  - rewrite Hone. rewrite decide_True by done. simpl.
    rewrite Count_filter_snoc. unfold sentences__disposition. simpl.
    destruct (Sentence.disposition mapping_input) as [[]|];
      by case_decide.
  - rewrite Hone. rewrite decide_True by done. simpl.
    rewrite Count_filter_snoc. unfold sentences__disposition. simpl.
    destruct (Sentence.disposition mapping_input) as [[]|];
      by case_decide.
  - intros t' Hne. rewrite Hone.
    rewrite decide_False by congruence. simpl.
    by rewrite app_nil_r.
Qed.

Lemma from_mapping_saved_counts_witness :
  ∃ new,
    SentenceTechniqueMapping_from_mapping
      (sample_sentence 2 (Some accept)) (Mapping.mk 0.5%float "T1000")
      sample_store = (Ok new, sample_store)
    ∧ let db' := (SentenceTechniqueMapping_save new sample_store).2 in
      total_sentences (annotate_one db' T1000)
      = total_sentences (annotate_one sample_store T1000) + 1
      ∧ accepted_sentences (annotate_one db' T1000)
        = accepted_sentences (annotate_one sample_store T1000) + 1
      ∧ pending_sentences (annotate_one db' T1000)
        = pending_sentences (annotate_one sample_store T1000) + 0
      ∧ ∀ t', AttackTechnique.id t' ≠ AttackTechnique.id T1000 →
              annotate_one db' t' = annotate_one sample_store t'.
Proof.
  apply (from_mapping_saved_counts (sample_sentence 2 (Some accept))
           (Mapping.mk 0.5%float "T1000") sample_store T1000).
  - exact sample_sentence_keys.
  - in_literal_list.
  - by_evaluation.
  - in_literal_list.
  - reflexivity.
Defined.

(** ** [create_from_file]: what it keeps *)

Lemma NoDup_snoc_fresh (pks : list Z) : NoDup pks → NoDup (pks ++ [next_pk pks]).
Proof.
  intros Hpks. apply NoDup_app. split; [done|]. split.
  - intros k Hk Hk'. apply list_elem_of_singleton in Hk' as ->.
    by apply next_pk_fresh in Hk.
  - apply NoDup_singleton.
Qed.

Section CreateFromFileKeeps.

Variable storage_save : File.t → FileSystem → result string * FileSystem.

Local Abbreviation create_from_file :=
  (DocumentProcessingJob_create_from_file storage_save).

(** A [create_from_file] that returned has added a document and a job. *)
Lemma create_from_file_Ok (f : PyObject) (db db' : Store) (fs fs' : FileSystem)
    (dpj : DocumentProcessingJob.t) :
  create_from_file f db fs = (Ok dpj, db', fs') →
  ∃ stored, created_document_and_job db db' stored dpj.
Proof.
  destruct f as [| | | | |file]; try discriminate.
  pose proof (create_from_file_File storage_save file db fs) as H.
  destruct (FileField_pre_save storage_save file fs) as [[stored|e] fs1].
  - destruct H as (dpj0 & db0 & -> & Hcreated).
    intros [= <- <- <-]. by exists stored.
  - rewrite H. discriminate.
Qed.

(** X9: [create_from_file] keeps the keys of documents and of jobs unique
    and keeps every job pointing to a document of the store, whether the
    call succeeds, fails its assertion or raises what the storage raised. *)
Theorem create_from_file_keeps (f : PyObject) (db : Store) (fs : FileSystem) :
  NoDup (Document.id <$> documents db) →
  NoDup (DocumentProcessingJob.id <$> document_processing_jobs db) →
  (∀ j, j ∈ document_processing_jobs db →
        DocumentProcessingJob.document j ∈ Document.id <$> documents db) →
  let db' := (create_from_file f db fs).1.2 in
  NoDup (Document.id <$> documents db')
  ∧ NoDup (DocumentProcessingJob.id <$> document_processing_jobs db')
  ∧ (∀ j, j ∈ document_processing_jobs db' →
          DocumentProcessingJob.document j ∈ Document.id <$> documents db').
Proof.
  intros Hdocs Hjobs Hfk.
  destruct f as [| | | | |file]; try done.
  unfold DocumentProcessingJob_create_from_file, Document_save. simpl.
  destruct (FileField_pre_save storage_save file fs) as [[stored|e] fs1];
    simpl; [|done].
  rewrite !fmap_app. simpl.
  split; [by apply NoDup_snoc_fresh|]. split; [by apply NoDup_snoc_fresh|].
  intros j [Hj|Hj]%elem_of_app.
  - apply elem_of_app. left. by apply Hfk.
  - apply list_elem_of_singleton in Hj as ->. simpl.
    apply elem_of_app. right. by constructor.
Qed.

(** X10: two successful calls in a row give two jobs with different keys,
    for two different documents, and both jobs are in the store after the
    second call. *)
Theorem create_from_file_twice (f1 f2 : PyObject) (db db1 db2 : Store)
    (fs fs1 fs2 : FileSystem) (dpj1 dpj2 : DocumentProcessingJob.t) :
  create_from_file f1 db fs = (Ok dpj1, db1, fs1) →
  create_from_file f2 db1 fs1 = (Ok dpj2, db2, fs2) →
  DocumentProcessingJob.id dpj1 ≠ DocumentProcessingJob.id dpj2
  ∧ DocumentProcessingJob.document dpj1 ≠ DocumentProcessingJob.document dpj2
  ∧ dpj1 ∈ document_processing_jobs db2
  ∧ dpj2 ∈ document_processing_jobs db2.
Proof.
  intros (stored1 & doc1 & Hdocs1 & Hjobs1 & _ & _ & Hdoc1 & _)%create_from_file_Ok
         (stored2 & doc2 & _ & Hjobs2 & _ & Hfresh2 & Hdoc2 & _ & Hjob2 & _)%create_from_file_Ok.
  rewrite Hjobs1, fmap_app in Hjob2. rewrite Hdocs1, fmap_app in Hfresh2.
  repeat split.
  - intros E. apply Hjob2. rewrite <- E.
    apply elem_of_app. right. by constructor.
  - rewrite Hdoc1, Hdoc2. intros E. apply Hfresh2. rewrite <- E.
    apply elem_of_app. right. by constructor.
  - rewrite Hjobs2, Hjobs1.
    apply elem_of_app. left. apply elem_of_app. right. by constructor.
  - rewrite Hjobs2. apply elem_of_app. right. by constructor.
Qed.

End CreateFromFileKeeps.

Lemma create_from_file_keeps_witness :
  let db' := (DocumentProcessingJob_create_from_file sample_storage_save
                (PyFile (File.mk "report.pdf" [])) sample_store ∅).1.2 in
  NoDup (Document.id <$> documents db')
  ∧ NoDup (DocumentProcessingJob.id <$> document_processing_jobs db')
  ∧ (∀ j, j ∈ document_processing_jobs db' →
          DocumentProcessingJob.document j ∈ Document.id <$> documents db').
Proof.
  apply create_from_file_keeps.
  - apply NoDup_nil_2.
  - apply NoDup_nil_2.
  - intros j Hj. by apply elem_of_nil in Hj.
Defined.

Lemma create_from_file_twice_witness :
  DocumentProcessingJob.id (DocumentProcessingJob.mk 1 1 queued EmptyString None)
  ≠ DocumentProcessingJob.id (DocumentProcessingJob.mk 2 2 queued EmptyString None)
  ∧ DocumentProcessingJob.document
      (DocumentProcessingJob.mk 1 1 queued EmptyString None)
    ≠ DocumentProcessingJob.document
        (DocumentProcessingJob.mk 2 2 queued EmptyString None)
  ∧ DocumentProcessingJob.mk 1 1 queued EmptyString None
    ∈ document_processing_jobs
        (DocumentProcessingJob_create_from_file sample_storage_save
           (PyFile (File.mk "b.pdf" []))
           (DocumentProcessingJob_create_from_file sample_storage_save
              (PyFile (File.mk "a.pdf" [])) empty_store ∅).1.2
           (DocumentProcessingJob_create_from_file sample_storage_save
              (PyFile (File.mk "a.pdf" [])) empty_store ∅).2).1.2
  ∧ DocumentProcessingJob.mk 2 2 queued EmptyString None
    ∈ document_processing_jobs
        (DocumentProcessingJob_create_from_file sample_storage_save
           (PyFile (File.mk "b.pdf" []))
           (DocumentProcessingJob_create_from_file sample_storage_save
              (PyFile (File.mk "a.pdf" [])) empty_store ∅).1.2
           (DocumentProcessingJob_create_from_file sample_storage_save
              (PyFile (File.mk "a.pdf" [])) empty_store ∅).2).1.2.
Proof.
  apply (create_from_file_twice sample_storage_save
           (PyFile (File.mk "a.pdf" [])) (PyFile (File.mk "b.pdf" []))
           empty_store
           (DocumentProcessingJob_create_from_file sample_storage_save
              (PyFile (File.mk "a.pdf" [])) empty_store ∅).1.2
           (DocumentProcessingJob_create_from_file sample_storage_save
              (PyFile (File.mk "b.pdf" []))
              (DocumentProcessingJob_create_from_file sample_storage_save
                 (PyFile (File.mk "a.pdf" [])) empty_store ∅).1.2
              (DocumentProcessingJob_create_from_file sample_storage_save
                 (PyFile (File.mk "a.pdf" [])) empty_store ∅).2).1.2
           ∅
           (DocumentProcessingJob_create_from_file sample_storage_save
              (PyFile (File.mk "a.pdf" [])) empty_store ∅).2
           (DocumentProcessingJob_create_from_file sample_storage_save
              (PyFile (File.mk "b.pdf" []))
              (DocumentProcessingJob_create_from_file sample_storage_save
                 (PyFile (File.mk "a.pdf" [])) empty_store ∅).1.2
              (DocumentProcessingJob_create_from_file sample_storage_save
                 (PyFile (File.mk "a.pdf" [])) empty_store ∅).2).2);
    reflexivity.
Defined.

(** ** [_delete_file] and the receiver: what they touch *)

Section CleanupTouches.

Variable realpath : string → string.
Variable unlink_error : string → option Exception.
Variable storage_path : string → result string.

Local Abbreviation isfile := (os_path_isfile realpath).
Local Abbreviation delete_file := (_delete_file realpath unlink_error).
Local Abbreviation receiver :=
  (delete_file_post_delete realpath unlink_error storage_path).

(** X11: [_delete_file] either returns, and then the path is not a file,
    or it raises the error the system answered to the removal of a file
    that is there, and then it has changed nothing.  Either way every
    entry but the one the path names is as it was; a regular file that the
    system lets go is gone, and a directory at the path is left in place
    without an error. *)
Theorem delete_file_touches_one_path (path : string) (fs : FileSystem) :
  let after := _delete_file realpath unlink_error path fs in
  (after.1 = Ok tt ∧ os_path_isfile realpath after.2 path = false
   ∨ ∃ e, os_path_isfile realpath fs path = true
          ∧ unlink_error (realpath path) = Some e
          ∧ after = (Raise e, fs))
  ∧ (∀ entry, entry ≠ realpath path → after.2 !! entry = fs !! entry)
  ∧ (∀ content, fs !! realpath path = Some (RegularFile content) →
                unlink_error (realpath path) = None →
                after = (Ok tt, delete (realpath path) fs))
  ∧ (fs !! realpath path = Some Directory → after = (Ok tt, fs)).
Proof.
  cbv zeta. split; [|split; [|split]].
  - destruct (delete_file_cases realpath unlink_error path fs)
      as [[Hno ->]|[(_ & _ & ->)|(e & Hyes & He & ->)]]; simpl.
    + by left.
    + left. split; [done|apply isfile_delete].
    + right. by exists e.
  - intros entry Hne.
    destruct (delete_file_cases realpath unlink_error path fs)
      as [[_ ->]|[(_ & _ & ->)|(e & _ & _ & ->)]]; simpl; [done| |done].
    by rewrite lookup_delete_ne.
  - intros content Hfile Hallowed.
    unfold _delete_file, os_path_isfile, os_remove.
    by rewrite Hfile, Hallowed.
  - intros Hdir. unfold _delete_file, os_path_isfile. by rewrite Hdir.
Qed.

(** X13: the [post_delete] receiver does nothing for a document without a
    file name; for a name that the storage gives no path for it raises the
    storage's exception and changes nothing; for a name with a path it
    does what [_delete_file] does on that path: every entry but the one
    the path names is as it was, and when it returns the path is not a
    file. *)
Theorem receiver_touches_own_path (instance : Document.t) (fs : FileSystem) :
  (File.name (Document.docfile instance) = EmptyString →
   receiver instance fs = (Ok tt, fs))
  ∧ (∀ e, File.name (Document.docfile instance) ≠ EmptyString →
          storage_path (File.name (Document.docfile instance)) = Raise e →
          receiver instance fs = (Raise e, fs))
  ∧ (∀ path, File.name (Document.docfile instance) ≠ EmptyString →
             storage_path (File.name (Document.docfile instance)) = Ok path →
             receiver instance fs = delete_file path fs
             ∧ (∀ entry, entry ≠ realpath path →
                         (receiver instance fs).2 !! entry = fs !! entry)
             ∧ ((receiver instance fs).1 = Ok tt →
                isfile (receiver instance fs).2 path = false)).
Proof.
  unfold delete_file_post_delete, docfile_bool.
  split; [|split].
  - intros Hname. by rewrite decide_True.
  - intros e Hname Hpath. by rewrite decide_False, Hpath.
  - intros path Hname Hpath. rewrite decide_False, Hpath by done.
    split; [done|]. split.
    + intros entry Hne.
      destruct (delete_file_cases realpath unlink_error path fs)
        as [[_ ->]|[(_ & _ & ->)|(e & _ & _ & ->)]]; simpl; [done| |done].
      by rewrite lookup_delete_ne.
    + apply delete_file_gone.
Qed.

End CleanupTouches.

(** ** [Sentence.__str__] *)

Lemma string_length_append (s1 s2 : string) :
  String.length (s1 +:+ s2) = (String.length s1 + String.length s2)%nat.
Proof. induction s1 as [|c s1 IH]; simpl; [done|by rewrite IH]. Qed.

Lemma substring_length (n : nat) (s : string) :
  String.length (String.substring 0 n s) = (n `min` String.length s)%nat.
Proof.
  revert s. induction n as [|n IH]; intros [|c s]; simpl; try done.
  by rewrite IH.
Qed.

Lemma substring_whole (n : nat) (s : string) :
  (String.length s ≤ n)%nat → String.substring 0 n s = s.
Proof.
  revert s. induction n as [|n IH]; intros [|c s]; simpl; try done; [lia|].
  intros Hlen. rewrite IH; [done|lia].
Qed.

Lemma string_append_empty (s : string) : s +:+ EmptyString = s.
Proof. induction s as [|c s IH]; [done|]. exact (f_equal (String c) IH). Qed.

Lemma substring_append_skip (s1 s2 : string) (m : nat) :
  String.substring (String.length s1) m (s1 +:+ s2) = String.substring 0 m s2.
Proof. induction s1 as [|c s1 IH]; simpl; done. Qed.

(** X14: the preview of a sentence is never longer than 43 characters; a
    text of at most 40 characters is shown whole; a longer one is shown as
    its first 40 characters followed by three dots, 43 characters in all. *)
Theorem sentence_preview (self : Sentence.t) :
  (String.length (Sentence___str__ self) ≤ 43)%nat
  ∧ ((String.length (Sentence.text self) ≤ 40)%nat →
     Sentence___str__ self = Sentence.text self)
  ∧ ((40 < String.length (Sentence.text self))%nat →
     String.length (Sentence___str__ self) = 43%nat
     ∧ String.substring 40 3 (Sentence___str__ self) = "..."
     ∧ ∀ i, (i < 40)%nat →
            String.get i (Sentence___str__ self)
            = String.get i (Sentence.text self)).
Proof.
  unfold Sentence___str__, SENTENCE_PREVIEW_CHARS.
  destruct (Nat.ltb_spec 40 (String.length (Sentence.text self))) as [Hlong|Hshort].
  - assert (String.length (String.substring 0 40 (Sentence.text self)) = 40%nat)
      as Hlen by (rewrite substring_length; lia).
    split; [rewrite string_length_append, Hlen; simpl; lia|].
    split; [lia|]. intros _.
    split; [rewrite string_length_append, Hlen; simpl; lia|].
    split.
    + rewrite <- Hlen at 1. by rewrite substring_append_skip.
    + intros i Hi.
      rewrite <- String.append_correct1 by lia.
      rewrite String.substring_correct1 by done.
      by rewrite Nat.add_0_r.
  - rewrite string_append_empty, substring_whole by done.
    split; [lia|]. split; [done|lia].
Qed.

(** ** Deleting a document *)

(** A key of a table is still a key once rows are dropped, when the rows of
    that key are kept. *)
Lemma key_kept {A} (pk : A → Z) (P : A → Prop) `{!∀ x, Decision (P x)}
    (l : list A) (k : Z) :
  k ∈ pk <$> l → (∀ x, x ∈ l → pk x = k → P x) → k ∈ pk <$> filter P l.
Proof.
  intros (x & -> & Hx)%list_elem_of_fmap HP.
  apply list_elem_of_fmap. exists x. split; [done|].
  apply list_elem_of_filter. split; [by apply HP|done].
Qed.

Lemma document_key_kept (db : Store) (d k : Z) :
  k ∈ Document.id <$> documents db → k ≠ d →
  k ∈ Document.id <$> filter (λ x, Document.id x ≠ d) (documents db).
Proof. intros Hk Hne. apply key_kept; [done|]. by intros x _ ->. Qed.

Lemma report_key_kept (db : Store) (d k : Z) :
  k ∈ Report.id <$> reports db → k ∉ cascade_reports db d →
  k ∈ Report.id <$> filter (λ r, Report.document r ≠ Some d) (reports db).
Proof.
  intros Hk Hkeep. apply key_kept; [done|].
  intros r Hr <- Hdoc. apply Hkeep. unfold cascade_reports.
  apply list_elem_of_fmap. exists r. split; [done|].
  by apply list_elem_of_filter.
Qed.

Lemma sentence_key_kept (db : Store) (d k : Z) :
  k ∈ Sentence.id <$> sentences db → k ∉ cascade_sentences db d →
  k ∈ Sentence.id <$> filter (λ s, ¬ sentence_cascades db d s) (sentences db).
Proof.
  intros Hk Hkeep. apply key_kept; [done|].
  intros s Hs <- Hcascades. apply Hkeep. unfold cascade_sentences.
  apply list_elem_of_fmap. exists s. split; [done|].
  by apply list_elem_of_filter.
Qed.

(** The cascade leaves no orphan. *)
Lemma cascade_delete_references (d : Z) (D : Database) :
  references_hold D → references_hold (cascade_delete d D).
Proof.
  unfold references_hold, cascade_delete. simpl.
  intros (Hjob & Hrep & Hsen & Hind & Hstm & Hsgm & Hrtm & Hrgm).
  repeat split.
  - intros j [Hd Hj]%list_elem_of_filter.
    apply document_key_kept; auto.
  - intros r d' [Hd Hr]%list_elem_of_filter Hdoc.
    apply document_key_kept; [by eapply Hrep|congruence].
  - apply list_elem_of_filter in H as [Hkeep Hs].
    apply report_key_kept; [by apply Hsen|].
    intros Hr. apply Hkeep. by right.
  - intros d' Hdoc. apply list_elem_of_filter in H as [Hkeep Hs].
    apply document_key_kept; [by eapply Hsen|].
    intros ->. apply Hkeep. by left.
  - intros i [Hkeep Hi]%list_elem_of_filter.
    apply report_key_kept; auto.
  - apply list_elem_of_filter in H as [Hkeep Hm].
    apply report_key_kept; [by apply Hstm|].
    intros Hr. apply Hkeep. by left.
  - apply list_elem_of_filter in H as [Hkeep Hm].
    apply sentence_key_kept; [by apply Hstm|].
    intros Hs. apply Hkeep. by right.
  - intros t Ht. apply list_elem_of_filter in H as [Hkeep Hm].
    by eapply Hstm.
  - apply list_elem_of_filter in H as [Hkeep Hm].
    apply report_key_kept; [by apply Hsgm|].
    intros Hr. apply Hkeep. by left.
  - apply list_elem_of_filter in H as [Hkeep Hm].
    apply sentence_key_kept; [by apply Hsgm|].
    intros Hs. apply Hkeep. by right.
  - intros g Hg. apply list_elem_of_filter in H as [Hkeep Hm].
    by eapply Hsgm.
  - apply list_elem_of_filter in H as [Hkeep Hm].
    apply report_key_kept; [by apply Hrtm|done].
  - apply list_elem_of_filter in H as [Hkeep Hm]. by apply Hrtm.
  - apply list_elem_of_filter in H as [Hkeep Hm].
    apply report_key_kept; [by apply Hrgm|done].
  - apply list_elem_of_filter in H as [Hkeep Hm]. by apply Hrgm.
Qed.

(** What the cascade takes: the document, its jobs and reports, the
    sentences of the document or of its reports, and what points to those
    reports and sentences. *)
Lemma cascade_delete_reaches (d : Z) (D : Database) :
  let D' := cascade_delete d D in
  (∀ x, x ∈ documents (tables D') → Document.id x ≠ d)
  ∧ (∀ j, j ∈ document_processing_jobs (tables D') →
          DocumentProcessingJob.document j ≠ d)
  ∧ (∀ r, r ∈ reports (tables D) →
          Report.document r = Some d →
          (r ∉ reports (tables D'))
          ∧ (∀ i, i ∈ indicators D' → Indicator.report i ≠ Report.id r)
          ∧ (∀ m, m ∈ sentence_technique_mappings (tables D') →
                  SentenceTechniqueMapping.report m ≠ Report.id r)
          ∧ (∀ m, m ∈ sentence_group_mappings (tables D') →
                  SentenceGroupMapping.report m ≠ Report.id r)
          ∧ (∀ m, m ∈ report_technique_mappings (tables D') →
                  ReportTechniqueMapping.report m ≠ Report.id r)
          ∧ (∀ m, m ∈ report_group_mappings (tables D') →
                  ReportGroupMapping.report m ≠ Report.id r)
          ∧ (∀ s, s ∈ sentences (tables D') →
                  Sentence.report s ≠ Report.id r))
  ∧ (∀ s, s ∈ sentences (tables D) →
          (Sentence.document s = Some d
           ∨ ∃ r, r ∈ reports (tables D)
                  ∧ Report.document r = Some d
                  ∧ Sentence.report s = Report.id r) →
          (s ∉ sentences (tables D'))
          ∧ (∀ m, m ∈ sentence_technique_mappings (tables D') →
                  SentenceTechniqueMapping.sentence m ≠ Sentence.id s)
          ∧ (∀ m, m ∈ sentence_group_mappings (tables D') →
                  SentenceGroupMapping.sentence m ≠ Sentence.id s)).
Proof.
  simpl.
  assert (∀ r, r ∈ reports (tables D) → Report.document r = Some d →
               Report.id r ∈ cascade_reports (tables D) d) as Hrep.
  { intros r Hr Hd. apply list_elem_of_fmap. exists r. split; [done|].
    by apply list_elem_of_filter. }
  assert (∀ s, s ∈ sentences (tables D) →
               sentence_cascades (tables D) d s →
               Sentence.id s ∈ cascade_sentences (tables D) d) as Hsen.
  { intros s Hs Hc. apply list_elem_of_fmap. exists s. split; [done|].
    by apply list_elem_of_filter. }
  split; [by intros x [Hx _]%list_elem_of_filter|].
  split; [by intros j [Hj _]%list_elem_of_filter|].
  split.
  - intros r Hr Hd. specialize (Hrep r Hr Hd).
    split; [by intros [Hkeep _]%list_elem_of_filter|].
    split; [intros i [Hkeep _]%list_elem_of_filter E; by rewrite E in Hkeep|].
    split; [intros m [Hkeep _]%list_elem_of_filter E; apply Hkeep; left;
            by rewrite E|].
    split; [intros m [Hkeep _]%list_elem_of_filter E; apply Hkeep; left;
            by rewrite E|].
    split; [intros m [Hkeep _]%list_elem_of_filter E; by rewrite E in Hkeep|].
    split; [intros m [Hkeep _]%list_elem_of_filter E; by rewrite E in Hkeep|].
    intros s [Hkeep _]%list_elem_of_filter E. apply Hkeep. right. by rewrite E.
  - intros s Hs Hwhy.
    assert (sentence_cascades (tables D) d s) as Hc.
    { destruct Hwhy as [Hdoc|(r & Hr & Hd & E)]; [by left|].
      right. rewrite E. by apply Hrep. }
    specialize (Hsen s Hs Hc).
    split; [by intros [Hkeep _]%list_elem_of_filter|].
    split; intros m [Hkeep _]%list_elem_of_filter E; apply Hkeep; right;
      by rewrite E.
Qed.

(** What [cascade_delete] leaves of a database in which no job, report or
    sentence points to the document. *)
Lemma cascade_delete_no_dependents (d : Z) (D : Database) :
  (∀ j, j ∈ document_processing_jobs (tables D) →
        DocumentProcessingJob.document j ≠ d) →
  (∀ r, r ∈ reports (tables D) → Report.document r ≠ Some d) →
  (∀ s, s ∈ sentences (tables D) → Sentence.document s ≠ Some d) →
  cascade_delete d D
  = {| tables :=
         mkStore (attack_techniques (tables D)) (attack_groups (tables D))
           (filter (λ x, Document.id x ≠ d) (documents (tables D)))
           (document_processing_jobs (tables D)) (reports (tables D))
           (sentences (tables D)) (sentence_technique_mappings (tables D))
           (sentence_group_mappings (tables D))
           (report_technique_mappings (tables D))
           (report_group_mappings (tables D));
       indicators := indicators D |}.
Proof.
  intros Hjob Hrep Hsen.
  assert (cascade_reports (tables D) d = []) as Hr.
  { unfold cascade_reports. rewrite filter_none; [done|].
    intros r Hr. by apply Hrep. }
  assert (∀ s, s ∈ sentences (tables D) → ¬ sentence_cascades (tables D) d s)
    as Hs.
  { intros s Hs [Hdoc|Hrs]; [by apply (Hsen s)|].
    rewrite Hr in Hrs. by apply elem_of_nil in Hrs. }
  assert (cascade_sentences (tables D) d = []) as Hss.
  { unfold cascade_sentences. rewrite filter_none; [done|]. intros s Hs' Hc.
    by apply (Hs s). }
  unfold cascade_delete, mapping_cascades.
  f_equal; [f_equal|]; try done; apply filter_all, Forall_forall; try done.
  - intros m _ [H|H]; [rewrite Hr in H|rewrite Hss in H];
      by apply elem_of_nil in H.
  - intros m _ [H|H]; [rewrite Hr in H|rewrite Hss in H];
      by apply elem_of_nil in H.
  - intros m _ H. rewrite Hr in H. by apply elem_of_nil in H.
  - intros m _ H. rewrite Hr in H. by apply elem_of_nil in H.
  - intros m _ H. rewrite Hr in H. by apply elem_of_nil in H.
Qed.

(** Once the cascade has run, running it again takes nothing more. *)
Lemma cascade_delete_twice (d : Z) (D : Database) :
  cascade_delete d (cascade_delete d D) = cascade_delete d D.
Proof.
  rewrite cascade_delete_no_dependents.
  - unfold cascade_delete. simpl. f_equal. f_equal.
    rewrite list_filter_filter. apply list_filter_iff. tauto.
  - by intros j [Hj _]%list_elem_of_filter.
  - by intros r [Hr _]%list_elem_of_filter.
  - intros s [Hkeep _]%list_elem_of_filter Hdoc. apply Hkeep. by left.
Qed.

Lemma sample_database_references : references_hold sample_database.
Proof.
  unfold references_hold. simpl. repeat split.
  - intros j Hj. each_row Hj ltac:(simpl; in_literal_list).
  - intros r d Hr Hd.
    each_row Hr ltac:(simpl in Hd; try discriminate Hd; injection Hd as <-;
                      in_literal_list).
  - each_row H ltac:(simpl; in_literal_list).
  - intros d Hd.
    each_row H ltac:(simpl in Hd; try discriminate Hd; injection Hd as <-;
                     in_literal_list).
  - intros i Hi. each_row Hi ltac:(simpl; in_literal_list).
  - each_row H ltac:(simpl; in_literal_list).
  - each_row H ltac:(simpl; in_literal_list).
  - intros t Ht.
    each_row H ltac:(simpl in Ht; try discriminate Ht; injection Ht as <-;
                     in_literal_list).
  - each_row H ltac:(idtac).
  - each_row H ltac:(idtac).
  - intros g Hg. each_row H ltac:(idtac).
  - each_row H ltac:(idtac).
  - each_row H ltac:(idtac).
  - each_row H ltac:(idtac).
  - each_row H ltac:(idtac).
Qed.

Section DeleteProperties.

Variable realpath : string → string.
Variable unlink_error : string → option Exception.
Variable storage_path : string → result string.

Local Abbreviation receiver :=
  (delete_file_post_delete realpath unlink_error storage_path).
Local Abbreviation document_delete :=
  (Document_delete realpath unlink_error storage_path).

(** The receiver run again on what it left answers as it did. *)
Lemma receiver_twice (instance : Document.t) (fs : FileSystem) :
  receiver instance (receiver instance fs).2 = receiver instance fs.
Proof.
  unfold delete_file_post_delete.
  destruct (docfile_bool (Document.docfile instance)); [|done].
  destruct (storage_path (File.name (Document.docfile instance)))
    as [path|e]; [|done].
  apply delete_file_twice.
Qed.

(** A [delete()] that returned: the object had a key, the receiver
    returned, the rows went and the object lost its key. *)
Lemma Document_delete_Ok (self self' : DocumentObject.t) (D D' : Database)
    (fs fs' : FileSystem) :
  document_delete self D fs = (Ok tt, self', D', fs') →
  ∃ d, DocumentObject.pk self = Some d
       ∧ receiver (Document.mk d (DocumentObject.docfile self) None) fs
         = (Ok tt, fs')
       ∧ self' = DocumentObject.mk None (DocumentObject.docfile self)
       ∧ D' = cascade_delete d D.
Proof.
  unfold Document_delete.
  destruct (DocumentObject.pk self) as [d|]; [|discriminate].
  destruct (receiver _ fs) as [[[]|e] fs1] eqn:Hreceiver; [|discriminate].
  intros [= <- <- <-]. by exists d.
Qed.

(** X16: deleting a document leaves no orphan: when every foreign key of
    the database points to a row that is there, the same holds after
    [delete()], whether it returned, and the document and all that
    cascades from it are deleted, or raised, and the rows are as they
    were. *)
Theorem document_delete_keeps_references (self : DocumentObject.t)
    (D : Database) (fs : FileSystem) :
  references_hold D →
  references_hold (document_delete self D fs).1.2.
Proof.
  intros HD. unfold Document_delete.
  destruct (DocumentObject.pk self) as [d|]; [|done].
  destruct (receiver _ fs) as [[[]|e] fs1]; simpl; [|done].
  by apply cascade_delete_references.
Qed.

(** X17: a [delete()] that returns reaches two levels down.  The document
    row, its jobs and its reports are gone; so is every sentence of the
    document or of one of its reports, and every mapping and indicator
    that points to one of those reports or sentences. *)
Theorem document_delete_cascades (self self' : DocumentObject.t) (d : Z)
    (D D' : Database) (fs fs' : FileSystem) :
  DocumentObject.pk self = Some d →
  document_delete self D fs = (Ok tt, self', D', fs') →
  (∀ x, x ∈ documents (tables D') → Document.id x ≠ d)
  ∧ (∀ j, j ∈ document_processing_jobs (tables D') →
          DocumentProcessingJob.document j ≠ d)
  ∧ (∀ r, r ∈ reports (tables D) →
          Report.document r = Some d →
          (r ∉ reports (tables D'))
          ∧ (∀ i, i ∈ indicators D' → Indicator.report i ≠ Report.id r)
          ∧ (∀ m, m ∈ sentence_technique_mappings (tables D') →
                  SentenceTechniqueMapping.report m ≠ Report.id r)
          ∧ (∀ m, m ∈ sentence_group_mappings (tables D') →
                  SentenceGroupMapping.report m ≠ Report.id r)
          ∧ (∀ m, m ∈ report_technique_mappings (tables D') →
                  ReportTechniqueMapping.report m ≠ Report.id r)
          ∧ (∀ m, m ∈ report_group_mappings (tables D') →
                  ReportGroupMapping.report m ≠ Report.id r)
          ∧ (∀ s, s ∈ sentences (tables D') →
                  Sentence.report s ≠ Report.id r))
  ∧ (∀ s, s ∈ sentences (tables D) →
          (Sentence.document s = Some d
           ∨ ∃ r, r ∈ reports (tables D)
                  ∧ Report.document r = Some d
                  ∧ Sentence.report s = Report.id r) →
          (s ∉ sentences (tables D'))
          ∧ (∀ m, m ∈ sentence_technique_mappings (tables D') →
                  SentenceTechniqueMapping.sentence m ≠ Sentence.id s)
          ∧ (∀ m, m ∈ sentence_group_mappings (tables D') →
                  SentenceGroupMapping.sentence m ≠ Sentence.id s)).
Proof.
  intros Hpk (d' & Hpk' & _ & _ & ->)%Document_delete_Ok.
  rewrite Hpk in Hpk'. injection Hpk' as <-.
  apply cascade_delete_reaches.
Qed.

(** X18: a [delete()] that returns, on a document that no job, report or
    sentence points to, has removed the document's own row and nothing
    else; on an object whose key is not in the store, in a database whose
    references hold, it has changed no table. *)
Theorem document_delete_alone (self self' : DocumentObject.t) (d : Z)
    (D D' : Database) (fs fs' : FileSystem) :
  DocumentObject.pk self = Some d →
  document_delete self D fs = (Ok tt, self', D', fs') →
  ((∀ j, j ∈ document_processing_jobs (tables D) →
         DocumentProcessingJob.document j ≠ d) →
   (∀ r, r ∈ reports (tables D) → Report.document r ≠ Some d) →
   (∀ s, s ∈ sentences (tables D) → Sentence.document s ≠ Some d) →
   D' = {| tables :=
             mkStore (attack_techniques (tables D)) (attack_groups (tables D))
               (filter (λ x, Document.id x ≠ d) (documents (tables D)))
               (document_processing_jobs (tables D)) (reports (tables D))
               (sentences (tables D)) (sentence_technique_mappings (tables D))
               (sentence_group_mappings (tables D))
               (report_technique_mappings (tables D))
               (report_group_mappings (tables D));
           indicators := indicators D |})
  ∧ (references_hold D →
     d ∉ Document.id <$> documents (tables D) →
     D' = D).
Proof.
  intros Hpk (d' & Hpk' & _ & _ & ->)%Document_delete_Ok.
  rewrite Hpk in Hpk'. injection Hpk' as <-.
  split.
  - apply cascade_delete_no_dependents.
  - intros (Hjob & Hrep & Hsen & _) Hfresh.
    rewrite cascade_delete_no_dependents.
    + rewrite filter_all.
      * by destruct D as [[] ?].
      * apply Forall_forall. intros x Hx E. apply Hfresh.
        rewrite <- E. by apply list_elem_of_fmap_2.
    + intros j Hj E. apply Hfresh. rewrite <- E. by apply Hjob.
    + intros r Hr E. apply Hfresh. by eapply Hrep.
    + intros s Hs E. apply Hfresh. by eapply Hsen.
Qed.

(** X19: once [delete()] has returned, a second [delete()] on the same
    object raises [ValueError], the object having lost its key, and a
    [delete()] of the same row through an object that still has the key
    returns; neither changes anything more, in the database or in the
    file system.  A [delete()] that raises leaves the object and the
    database as they were. *)
Theorem document_delete_twice (self : DocumentObject.t) (D : Database)
    (fs : FileSystem) :
  (∀ self' D' fs',
     document_delete self D fs = (Ok tt, self', D', fs') →
     document_delete self' D' fs' = (Raise ValueError, self', D', fs')
     ∧ document_delete self D' fs' = (Ok tt, self', D', fs'))
  ∧ (∀ e self' D' fs',
       document_delete self D fs = (Raise e, self', D', fs') →
       self' = self ∧ D' = D).
Proof.
  split.
  - intros self' D' fs' (d & Hpk & Hreceiver & -> & ->)%Document_delete_Ok.
    split; [done|].
    unfold Document_delete. rewrite Hpk.
    pose proof (receiver_twice
                  (Document.mk d (DocumentObject.docfile self) None) fs) as H.
    rewrite Hreceiver in H. simpl in H. rewrite H.
    by rewrite cascade_delete_twice.
  - intros e self' D' fs'. unfold Document_delete.
    destruct (DocumentObject.pk self) as [d|]; [|by intros [= _ <- <- _]].
    destruct (receiver _ fs) as [[[]|e'] fs1]; [discriminate|].
    by intros [= _ <- <- _].
Qed.

End DeleteProperties.

Lemma document_delete_keeps_references_witness :
  references_hold
    (Document_delete sample_realpath sample_unlink_error sample_storage_path
       sample_object sample_database sample_fs_stored).1.2.
Proof.
  apply document_delete_keeps_references.
  exact sample_database_references.
Defined.

Example sample_document_deleted :
  Document_delete sample_realpath sample_unlink_error sample_storage_path
    sample_object sample_database sample_fs_stored
  = (Ok tt, DocumentObject.mk None (File.mk "report.pdf" []),
     sample_database_deleted, <["/media" := Directory]> ∅).
Proof. vm_compute. reflexivity. Qed.

(** Where the system lets the process remove nothing, [delete()] raises
    and the rows stay. *)
Example sample_document_not_deleted :
  Document_delete sample_realpath readonly_unlink_error sample_storage_path
    sample_object sample_database sample_fs_stored
  = (Raise PermissionError, sample_object, sample_database, sample_fs_stored).
Proof. vm_compute. reflexivity. Qed.

Lemma document_delete_cascades_witness :
  Report.mk 1 "Report" (Some 1) "Two sentences." None
  ∉ reports (tables sample_database_deleted).
Proof.
  apply (document_delete_cascades sample_realpath sample_unlink_error
           sample_storage_path sample_object
           (DocumentObject.mk None (File.mk "report.pdf" [])) 1
           sample_database sample_database_deleted
           sample_fs_stored (<["/media" := Directory]> ∅)).
  - reflexivity.
  - vm_compute. reflexivity.
  - in_literal_list.
  - reflexivity.
Defined.

Lemma document_delete_alone_witness :
  (Document_delete sample_realpath sample_unlink_error sample_storage_path
     (DocumentObject.mk (Some 7) (File.mk "other.pdf" []))
     sample_database sample_fs_stored).1.2
  = sample_database.
Proof.
  apply (document_delete_alone sample_realpath sample_unlink_error
           sample_storage_path
           (DocumentObject.mk (Some 7) (File.mk "other.pdf" []))
           (DocumentObject.mk None (File.mk "other.pdf" [])) 7
           sample_database
           (Document_delete sample_realpath sample_unlink_error
              sample_storage_path
              (DocumentObject.mk (Some 7) (File.mk "other.pdf" []))
              sample_database sample_fs_stored).1.2
           sample_fs_stored sample_fs_stored).
  - reflexivity.
  - vm_compute. reflexivity.
  - exact sample_database_references.
  - simpl. intros Hin.
    apply elem_of_cons in Hin as [Hin|Hin]; [discriminate Hin|].
    by apply elem_of_nil in Hin.
Defined.

(** ** More on [_delete_file] *)

Section CleanupOrder.

Variable realpath : string → string.
Variable unlink_error : string → option Exception.

Local Abbreviation delete_file := (_delete_file realpath unlink_error).



End CleanupOrder.

Lemma delete_file_touches_one_path_witness :
  _delete_file sample_realpath sample_unlink_error "/media/report.pdf"
    sample_fs_stored
  = (Ok tt, delete "/media/report.pdf" sample_fs_stored)
  ∧ _delete_file sample_realpath sample_unlink_error "/media" sample_fs_stored
    = (Ok tt, sample_fs_stored)
  ∧ ∃ e, _delete_file sample_realpath readonly_unlink_error
           "/media/report.pdf" sample_fs_stored
         = (Raise e, sample_fs_stored).
Proof.
  split; [|split].
  - apply (delete_file_touches_one_path sample_realpath sample_unlink_error
             "/media/report.pdf" sample_fs_stored) with (content := []);
      reflexivity.
  - apply (delete_file_touches_one_path sample_realpath sample_unlink_error
             "/media" sample_fs_stored).
    reflexivity.
  - destruct (proj1 (delete_file_touches_one_path sample_realpath
                       readonly_unlink_error "/media/report.pdf"
                       sample_fs_stored))
      as [[Hok _]|(e & _ & _ & Hraise)]; [discriminate Hok|].
    by exists e.
Defined.

Lemma receiver_touches_own_path_witness :
  delete_file_post_delete sample_realpath sample_unlink_error
    sample_storage_path (Document.mk 2 (File.mk EmptyString []) None)
    sample_fs_stored
  = (Ok tt, sample_fs_stored)
  ∧ delete_file_post_delete sample_realpath sample_unlink_error
      sample_storage_path (Document.mk 3 (File.mk "../settings.py" []) None)
      sample_fs_stored
    = (Raise SuspiciousFileOperation, sample_fs_stored)
  ∧ os_path_isfile sample_realpath
      (delete_file_post_delete sample_realpath sample_unlink_error
         sample_storage_path sample_document sample_fs_stored).2
      "/media/report.pdf"
    = false.
Proof.
  split; [|split].
  - apply (receiver_touches_own_path sample_realpath sample_unlink_error
             sample_storage_path
             (Document.mk 2 (File.mk EmptyString []) None) sample_fs_stored).
    reflexivity.
  - apply (receiver_touches_own_path sample_realpath sample_unlink_error
             sample_storage_path
             (Document.mk 3 (File.mk "../settings.py" []) None)
             sample_fs_stored); [discriminate|reflexivity].
  - apply (receiver_touches_own_path sample_realpath sample_unlink_error
             sample_storage_path sample_document sample_fs_stored
           ); [discriminate|reflexivity|reflexivity].
Defined.

Lemma sentence_preview_witness :
  Sentence___str__
    (Sentence.mk 1 "Short text." None 1000 1 None) = "Short text."
  ∧ String.length
      (Sentence___str__
         (Sentence.mk 2 "The actors sent a spearphishing mail with a link."
            None 1000 1 None)) = 43%nat.
Proof.
  split.
  - apply (sentence_preview (Sentence.mk 1 "Short text." None 1000 1 None)).
    vm_compute. lia.
  - apply (sentence_preview
             (Sentence.mk 2 "The actors sent a spearphishing mail with a link."
                None 1000 1 None)).
    vm_compute. lia.
Defined.

Example sentence_preview_example :
  Sentence___str__
    (Sentence.mk 2 "The actors sent a spearphishing mail with a link."
       None 1000 1 None)
  = "The actors sent a spearphishing mail wit...".
Proof. reflexivity. Qed.
